(** * Plugin settings manager: load, validate, edit, save

    A shallow embedding of [src/obsidian/Plugin/PluginSettingsManagerBase.ts]
    and of the collaborators it calls, followed by the properties the
    specification states about it.

    - [JS]: JavaScript values, plain objects as property lists in
      property order, [typeof], [Object.entries], JSON, deep equality.
    - [Transformers]: the transformer chain the manager is configured
      with.
    - [Manager]: the class.  Its two private wrappers, the record the
      host holds in [data.json] and the events so far form the state;
      every method is a computation in a state-and-exception monad.  An
      [await] of an [async] call yields the call's result; a call of an
      [async] method without [await] yields a promise object, [VPromise].
    - [Spec]: closed forms of the methods, the states at rest, and the
      plugins used as concrete inputs.
    - the remaining modules: lemmas, and in [Claims] the claims. *)

From Stdlib Require Import List String Ascii ZArith Bool Lia.
From Stdlib Require Import DecimalString.
Import ListNotations.
Open Scope string_scope.
Open Scope list_scope.

Set Implicit Arguments.

(* ================================================================== *)
(** * JavaScript values *)
(* ================================================================== *)

Module JS.

(** Runtime values that can occur in settings and in persisted records.
    Numbers are restricted to integers (no NaN, no fractions): the
    manager never computes with them.  A [Date] and a duration are
    identified by the text their [toJSON] returns.  [VPromise v] is a
    promise object that settles with [v]. *)
Unset Elimination Schemes.
Inductive value : Type :=
| VUndefined
| VNull
| VBool (b : bool)
| VNum (n : Z)
| VStr (s : string)
| VDate (iso : string)
| VDuration (iso : string)
| VArr (items : list value)
| VObj (fields : list (string * value))
| VPromise (settled : value).
Set Elimination Schemes.

(** The own enumerable properties of a plain object, in the order they
    were added (names that look like array indices, which JavaScript
    enumerates first, are not moved). *)
Definition obj := list (string * value).

Section ValueInduction.
Variable P : value -> Prop.
Hypothesis Hundef : P VUndefined.
Hypothesis Hnull : P VNull.
Hypothesis Hbool : forall b, P (VBool b).
Hypothesis Hnum : forall n, P (VNum n).
Hypothesis Hstr : forall s, P (VStr s).
Hypothesis Hdate : forall d, P (VDate d).
Hypothesis Hdur : forall d, P (VDuration d).
Hypothesis Harr : forall l, Forall P l -> P (VArr l).
Hypothesis Hobj : forall fs, Forall (fun kv => P (snd kv)) fs -> P (VObj fs).
Hypothesis Hprom : forall v, P v -> P (VPromise v).

Fixpoint value_ind (v : value) : P v :=
  match v with
  | VUndefined => Hundef
  | VNull => Hnull
  | VBool b => Hbool b
  | VNum n => Hnum n
  | VStr s => Hstr s
  | VDate d => Hdate d
  | VDuration d => Hdur d
  | VArr l =>
      Harr ((fix items (l : list value) : Forall P l :=
               match l with
               | [] => Forall_nil _
               | x :: l' => Forall_cons x (value_ind x) (items l')
               end) l)
  | VObj fs =>
      Hobj ((fix fields (fs : obj) : Forall (fun kv => P (snd kv)) fs :=
               match fs with
               | [] => Forall_nil _
               | kv :: fs' => Forall_cons kv (value_ind (snd kv)) (fields fs')
               end) fs)
  | VPromise v => Hprom (value_ind v)
  end.
End ValueInduction.

(** [typeof v]. *)
Definition typeOf (v : value) : string :=
  match v with
  | VUndefined => "undefined"
  | VBool _ => "boolean"
  | VNum _ => "number"
  | VStr _ => "string"
  | VNull | VDate _ | VDuration _ | VArr _ | VObj _ | VPromise _ => "object"
  end.

(** Truthiness of a string: [if (s)]. *)
Definition truthy (s : string) : bool :=
  match s with
  | EmptyString => false
  | String _ _ => true
  end.

(** ** Plain objects as ordered property lists *)

(** [o[k]] as an own-property lookup. *)
Fixpoint lookup {A : Type} (o : list (string * A)) (k : string) : option A :=
  match o with
  | [] => None
  | (k', x) :: o' => if String.eqb k' k then Some x else lookup o' k
  end.

(** [o[k] = x]: an existing property keeps its place, a new one is added
    at the end. *)
Fixpoint assign {A : Type} (o : list (string * A)) (k : string) (x : A)
  : list (string * A) :=
  match o with
  | [] => [(k, x)]
  | (k', y) :: o' =>
      if String.eqb k' k then (k', x) :: o' else (k', y) :: assign o' k x
  end.

Definition keys {A : Type} (o : list (string * A)) : list string :=
  map fst o.

(** [v[k]] for the objects the manager reads: a plain object gives the
    own property or [undefined]; a promise, a date, a duration and the
    primitives have no own property of a settings name.  Names that
    shadow members of [Object.prototype] are outside the model. *)
Definition getProp (v : value) (k : string) : value :=
  match v with
  | VObj fs => match lookup fs k with Some x => x | None => VUndefined end
  | _ => VUndefined
  end.

(** [v[k] = x] on a plain object; the manager only assigns to objects
    that [createDefaultSettings] made, so other kinds are left alone. *)
Definition setProp (v : value) (k : string) (x : value) : value :=
  match v with
  | VObj fs => VObj (assign fs k x)
  | _ => v
  end.

(** The value is a plain object. *)
Definition isObject (v : value) : Prop := exists fs, v = VObj fs.

(** Decimal text of an array index. *)
Definition indexKey (i : nat) : string :=
  NilEmpty.string_of_uint (Nat.to_uint i).

Fixpoint indexed (i : nat) (l : list value) : obj :=
  match l with
  | [] => []
  | x :: l' => (indexKey i, x) :: indexed (S i) l'
  end.

(** [Object.entries(v)].  Persisted data is parsed JSON, so the object
    kinds that reach it are plain objects and arrays. *)
Definition entries (v : value) : obj :=
  match v with
  | VObj fs => fs
  | VArr l => indexed 0 l
  | _ => []
  end.

(** [JSON.parse(JSON.stringify(v))] as one step on values: properties
    holding [undefined] are left out, an [undefined] array item becomes
    [null], a date or duration becomes its [toJSON] text, and an object
    without own enumerable properties (a promise) becomes [{}]. *)
Fixpoint jsonRoundTrip (v : value) : value :=
  match v with
  | VDate iso | VDuration iso => VStr iso
  | VArr l =>
      VArr (map (fun x => match x with
                          | VUndefined => VNull
                          | _ => jsonRoundTrip x
                          end) l)
  | VObj fs =>
      VObj ((fix props (fs : obj) : obj :=
               match fs with
               | [] => []
               | (_, VUndefined) :: fs' => props fs'
               | (k, x) :: fs' => (k, jsonRoundTrip x) :: props fs'
               end) fs)
  | VPromise _ => VObj []
  | _ => v
  end.

(** Modelled from the spec: [deepEqual] of [src/Object.ts], which the
    manager imports and which is not among the sources.  The spec calls
    it deep equality: primitives by value, arrays item by item, objects
    as maps from property name to value whatever the property order.
    A promise has no own enumerable property. *)
Fixpoint deepEqual (a b : value) {struct a} : bool :=
  match a, b with
  | VUndefined, VUndefined => true
  | VNull, VNull => true
  | VBool x, VBool y => Bool.eqb x y
  | VNum x, VNum y => Z.eqb x y
  | VStr x, VStr y => String.eqb x y
  | VDate x, VDate y => String.eqb x y
  | VDuration x, VDuration y => String.eqb x y
  | VArr xs, VArr ys =>
      (fix items (xs ys : list value) {struct xs} : bool :=
         match xs, ys with
         | [], [] => true
         | x :: xs', y :: ys' => deepEqual x y && items xs' ys'
         | _, _ => false
         end) xs ys
  | VObj fs, VObj gs =>
      Nat.eqb (List.length fs) (List.length gs)
      && (fix props (fs : obj) : bool :=
            match fs with
            | [] => true
            | (k, x) :: fs' =>
                match lookup gs k with
                | Some y => deepEqual x y
                | None => false
                end && props fs'
            end) fs
  | VPromise _, VPromise _ => true
  | VPromise _, VObj gs | VObj gs, VPromise _ =>
      match gs with [] => true | _ :: _ => false end
  | _, _ => false
  end.

(** The two inner loops of [deepEqual], by name. *)
Fixpoint itemsDeepEqual (xs ys : list value) : bool :=
  match xs, ys with
  | [], [] => true
  | x :: xs', y :: ys' => deepEqual x y && itemsDeepEqual xs' ys'
  | _, _ => false
  end.

Fixpoint propsDeepEqual (gs fs : obj) : bool :=
  match fs with
  | [] => true
  | (k, x) :: fs' =>
      match lookup gs k with
      | Some y => deepEqual x y
      | None => false
      end && propsDeepEqual gs fs'
  end.

(** Modelled from the spec: [getAllKeys] of [src/Object.ts], not among
    the sources; the spec has the manager take its fixed property-name
    list from the default settings' own keys. *)
Definition getAllKeys (v : value) : list string :=
  match v with
  | VObj fs => keys fs
  | _ => []
  end.

End JS.

(* ================================================================== *)
(** * Transformers *)
(* ================================================================== *)

Module Transformers.
Import JS.

(** Modelled from the spec: the [Transformer] classes of
    [src/Transformers/], which the manager imports and which are not
    among the sources.  A transformer converts the values it recognises
    to a serializable representation and back; values it does not
    recognise pass through unchanged.  Forward only, it may leave
    properties out of the output by their name. *)
Record Transformer : Type := {
  omitsProperty : string -> bool;
  transformValue : value -> value;
  restoreValue : value -> value
}.

(** Modelled from the spec: forward transformation of a value.  For an
    array or plain object the recursion into the items or properties
    comes first, then the leaf-level conversion at the current level. *)
Fixpoint transformForward (T : Transformer) (v : value) : value :=
  transformValue T
    match v with
    | VArr l => VArr (map (transformForward T) l)
    | VObj fs =>
        VObj ((fix props (fs : obj) : obj :=
                 match fs with
                 | [] => []
                 | (k, x) :: fs' =>
                     if omitsProperty T k then props fs'
                     else (k, transformForward T x) :: props fs'
                 end) fs)
    | _ => v
    end.

(** Modelled from the spec: backward transformation; nothing is left out
    and nothing that was left out is restored. *)
Fixpoint transformBackward (T : Transformer) (v : value) : value :=
  restoreValue T
    match v with
    | VArr l => VArr (map (transformBackward T) l)
    | VObj fs =>
        VObj ((fix props (fs : obj) : obj :=
                 match fs with
                 | [] => []
                 | (k, x) :: fs' => (k, transformBackward T x) :: props fs'
                 end) fs)
    | _ => v
    end.

(** The loops over the properties of [transformForward] and
    [transformBackward], by name. *)
Fixpoint forwardFields (T : Transformer) (fs : obj) : obj :=
  match fs with
  | [] => []
  | (k, x) :: fs' =>
      if omitsProperty T k then forwardFields T fs'
      else (k, transformForward T x) :: forwardFields T fs'
  end.

Fixpoint backwardFields (T : Transformer) (fs : obj) : obj :=
  match fs with
  | [] => []
  | (k, x) :: fs' => (k, transformBackward T x) :: backwardFields T fs'
  end.

(** The method the manager calls on its transformer when it saves. *)
Definition transformObjectRecursively (T : Transformer) (record : value)
  : value :=
  transformForward T record.

(** Modelled from the spec: the chain.  Its members are applied in list
    order forward and in reverse list order backward; a property is left
    out when some member leaves it out. *)
Definition GroupTransformer (members : list Transformer) : Transformer := {|
  omitsProperty := fun k => existsb (fun t => omitsProperty t k) members;
  transformValue := fun v =>
    fold_left (fun acc t => transformValue t acc) members v;
  restoreValue := fun v =>
    fold_left (fun acc t => restoreValue t acc) (rev members) v
|}.

(** Modelled from the spec: the serializable representation of a special
    value.  The spec leaves its shape open; the model uses a record that
    names the transformer and carries the value's text. *)
Definition transformerIdKey : string := "__transformerId".
Definition transformedValueKey : string := "transformedValue".

Definition tagged (id payload : string) : value :=
  VObj [(transformerIdKey, VStr id); (transformedValueKey, VStr payload)].

Definition untag (id : string) (v : value) : option string :=
  match getProp v transformerIdKey, getProp v transformedValueKey with
  | VStr id', VStr payload => if String.eqb id' id then Some payload else None
  | _, _ => None
  end.

(** Modelled from the spec: removes the properties whose name follows the
    private convention from the forward output, does nothing backward. *)
Definition SkipPrivatePropertyTransformer (isPrivate : string -> bool)
  : Transformer := {|
  omitsProperty := isPrivate;
  transformValue := fun v => v;
  restoreValue := fun v => v
|}.

(** Modelled from the spec: dates. *)
Definition DateTransformer : Transformer := {|
  omitsProperty := fun _ => false;
  transformValue := fun v =>
    match v with
    | VDate iso => tagged "DateTransformer" iso
    | _ => v
    end;
  restoreValue := fun v =>
    match untag "DateTransformer" v with
    | Some iso => VDate iso
    | None => v
    end
|}.

(** Modelled from the spec: durations. *)
Definition DurationTransformer : Transformer := {|
  omitsProperty := fun _ => false;
  transformValue := fun v =>
    match v with
    | VDuration iso => tagged "DurationTransformer" iso
    | _ => v
    end;
  restoreValue := fun v =>
    match untag "DurationTransformer" v with
    | Some iso => VDuration iso
    | None => v
    end
|}.

(** The default chain of the manager, in its fixed order, for a private
    naming convention. *)
Definition defaultChain (isPrivate : string -> bool) : Transformer :=
  GroupTransformer [
    SkipPrivatePropertyTransformer isPrivate;
    DateTransformer;
    DurationTransformer
  ].

(** Modelled from the spec: the private naming convention, which the spec
    calls a prefix without giving it; the model takes the underscore. *)
Definition isPrivateName (k : string) : bool := String.prefix "_" k.

Definition defaultTransformer : Transformer := defaultChain isPrivateName.

(** What forward-then-backward removes: the private properties of every
    plain object, at every depth. *)
Fixpoint stripPrivate (isPrivate : string -> bool) (v : value) : value :=
  match v with
  | VArr l => VArr (map (stripPrivate isPrivate) l)
  | VObj fs =>
      VObj ((fix props (fs : obj) : obj :=
               match fs with
               | [] => []
               | (k, x) :: fs' =>
                   if isPrivate k then props fs'
                   else (k, stripPrivate isPrivate x) :: props fs'
               end) fs)
  | _ => v
  end.

Fixpoint strippedFields (isPrivate : string -> bool) (fs : obj) : obj :=
  match fs with
  | [] => []
  | (k, x) :: fs' =>
      if isPrivate k then strippedFields isPrivate fs'
      else (k, stripPrivate isPrivate x) :: strippedFields isPrivate fs'
  end.

(** Supported shapes: no plain object of the settings carries the key
    that marks a serializable representation. *)
Fixpoint supported (v : value) : bool :=
  match v with
  | VArr l => forallb supported l
  | VObj fs =>
      negb (existsb (String.eqb transformerIdKey) (keys fs))
      && (fix props (fs : obj) : bool :=
            match fs with
            | [] => true
            | (_, x) :: fs' => supported x && props fs'
            end) fs
  | _ => true
  end.

(** Every plain object has distinct property names. *)
Fixpoint distinctKeys (l : list string) : bool :=
  match l with
  | [] => true
  | k :: l' => negb (existsb (String.eqb k) l') && distinctKeys l'
  end.

Fixpoint allFields (test : value -> bool) (fs : obj) : bool :=
  match fs with
  | [] => true
  | (_, x) :: fs' => test x && allFields test fs'
  end.

Fixpoint wellFormed (v : value) : bool :=
  match v with
  | VArr l => forallb wellFormed l
  | VObj fs =>
      distinctKeys (keys fs)
      && (fix props (fs : obj) : bool :=
            match fs with
            | [] => true
            | (_, x) :: fs' => wellFormed x && props fs'
            end) fs
  | _ => true
  end.

End Transformers.

(* ================================================================== *)
(** * The settings manager *)
(* ================================================================== *)

Module Manager.
Import JS Transformers.

(** [PluginSettingsWrapper]: the three views of one snapshot. *)
Record PluginSettingsWrapper : Type := {
  safeSettings : value;
  settings : value;
  validationMessages : list (string * string)
}.

(** A wrapper seen as the object it is, for code that indexes it by a
    property name. *)
Definition wrapperObject (w : PluginSettingsWrapper) : value :=
  VObj [
    ("safeSettings", safeSettings w);
    ("settings", settings w);
    ("validationMessages",
      VObj (map (fun km => (fst km, VStr (snd km))) (validationMessages w)))
  ].

(** What the manager does to the world outside it. *)
Inductive event : Type :=
| SaveData (record : value)
| ConsoleError (message : string)
| ConsoleWarn (message : string) (args : list value)
| OnLoadSettings (wrapper : PluginSettingsWrapper) (isInitialLoad : bool)
| OnSaveSettings (newWrapper oldWrapper : PluginSettingsWrapper)
    (context : value).

(** The manager's mutable fields, the record the host currently holds in
    [data.json] ([undefined] or [null] when there is none), and the
    events so far, oldest first. *)
Record State : Type := {
  currentSettingsWrapper : PluginSettingsWrapper;
  lastSavedSettingsWrapper : PluginSettingsWrapper;
  dataJson : value;
  trace : list event
}.

(** ** Computations: state, and a thrown value or a result *)

Inductive completion (A : Type) : Type :=
| Normal (a : A)
| Throw (e : value).
Arguments Normal {A} a.
Arguments Throw {A} e.

Definition M (A : Type) : Type := State -> completion A * State.

Definition ret {A : Type} (a : A) : M A := fun st => (Normal a, st).

Definition bind {A B : Type} (m : M A) (f : A -> M B) : M B :=
  fun st =>
    match m st with
    | (Normal a, st') => f a st'
    | (Throw e, st') => (Throw e, st')
    end.

Notation "x <- m ;; k" := (bind m (fun x => k))
  (at level 61, m at next level, right associativity).
Notation "m ;;; k" := (bind m (fun _ => k))
  (at level 61, right associativity).

(** [try { body } finally { handler }]. *)
Definition tryFinally {A : Type} (body : M A) (handler : M unit) : M A :=
  fun st =>
    match body st with
    | (c, st') =>
        match handler st' with
        | (Normal _, st'') => (c, st'')
        | (Throw e, st'') => (Throw e, st'')
        end
    end.

(** [for (const x of l) { body }]. *)
Fixpoint forEach {A : Type} (l : list A) (body : A -> M unit) : M unit :=
  match l with
  | [] => ret tt
  | x :: l' => body x ;;; forEach l' body
  end.

Definition get : M State := fun st => (Normal st, st).

Definition setCurrent (w : PluginSettingsWrapper) : M unit :=
  fun st =>
    (Normal tt,
     {| currentSettingsWrapper := w;
        lastSavedSettingsWrapper := lastSavedSettingsWrapper st;
        dataJson := dataJson st;
        trace := trace st |}).

Definition setLastSaved (w : PluginSettingsWrapper) : M unit :=
  fun st =>
    (Normal tt,
     {| currentSettingsWrapper := currentSettingsWrapper st;
        lastSavedSettingsWrapper := w;
        dataJson := dataJson st;
        trace := trace st |}).

Definition emit (e : event) : M unit :=
  fun st =>
    (Normal tt,
     {| currentSettingsWrapper := currentSettingsWrapper st;
        lastSavedSettingsWrapper := lastSavedSettingsWrapper st;
        dataJson := dataJson st;
        trace := trace st ++ [e] |}).

(** ** The host: [plugin.loadData] and [plugin.saveData] *)

(** The host keeps the record as JSON text in [data.json]: what
    [loadData] returns after [saveData record] is the record as JSON
    gives it back. *)
Definition loadData : M value := fun st => (Normal (dataJson st), st).

Definition saveData (record : value) : M unit :=
  fun st =>
    (Normal tt,
     {| currentSettingsWrapper := currentSettingsWrapper st;
        lastSavedSettingsWrapper := lastSavedSettingsWrapper st;
        dataJson := jsonRoundTrip record;
        trace := trace st ++ [SaveData record] |}).

(** ** What a plugin supplies *)

(** A validator gets the property's value and the whole settings and
    returns a message or nothing. *)
Definition Validator : Type := value -> value -> option string.

(** A settings editor, as what it makes of the settings object it is
    handed, and the value it throws, if it throws. *)
Definition Editor : Type := value -> value * option value.

(** The abstract and overridable members of the class.  A hook gets a
    record and mutates it in place: it is the function from the record
    before to the record after. *)
Record Plugin : Type := {
  createDefaultSettings : obj;
  registerValidators : list (string * Validator);
  onLoadRecord : value -> value;
  onSavingRecord : value -> value;
  getTransformer : Transformer
}.

Section Methods.
Variable P : Plugin.

Definition defaultSettings : value := VObj (createDefaultSettings P).

Definition createDefaultSettingsWrapper : PluginSettingsWrapper := {|
  safeSettings := VObj (createDefaultSettings P);
  settings := VObj (createDefaultSettings P);
  validationMessages := []
|}.

Definition propertyNames : list string :=
  getAllKeys (settings createDefaultSettingsWrapper).

(** The [validators] map after [registerValidators]: a later
    registration for a property overwrites the earlier one. *)
Definition validators : list (string * Validator) :=
  fold_left (fun m kv => assign m (fst kv) (snd kv))
    (registerValidators P) [].

(** The constructor, given what the host holds and the events so far. *)
Definition construct (data : value) (events : list event) : State := {|
  currentSettingsWrapper := createDefaultSettingsWrapper;
  lastSavedSettingsWrapper := createDefaultSettingsWrapper;
  dataJson := data;
  trace := events
|}.

Definition validate (settings : value) : list (string * string) :=
  fold_left
    (fun result kv =>
       match snd kv (getProp settings (fst kv)) settings with
       | Some validationMessage =>
           if truthy validationMessage
           then assign result (fst kv) validationMessage
           else result
       | None => result
       end)
    validators [].

Definition ensureSafe (settings : value) : value :=
  let validationResult := validate settings in
  fold_left
    (fun settings propertyName =>
       match lookup validationResult propertyName with
       | Some m =>
           if truthy m
           then setProp settings propertyName
                  (getProp defaultSettings propertyName)
           else settings
       | None => settings
       end)
    propertyNames settings.

Definition isValidPropertyName (prop : string) : bool :=
  existsb (String.eqb prop) propertyNames.

Definition invalidTypeWarning : string :=
  "Possible invalid value type. It might lead to an unexpected behavior of the plugin. There is also a chance it is a false-negative warning, as we are unable to determine the exact type of the value in runtime.".

(** One turn of the loop of [rawRecordToSettings], on the settings
    built so far. *)
Definition parseEntry (settings : value) (entry : string * value)
  : M value :=
  let propertyName := fst entry in
  let value := snd entry in
  if negb (isValidPropertyName propertyName) then
    emit (ConsoleWarn ("Unknown property: " ++ propertyName) []) ;;;
    ret settings
  else
    (if negb (String.eqb (typeOf value)
                (typeOf (getProp defaultSettings propertyName)))
     then emit (ConsoleWarn invalidTypeWarning
                  [VObj [("defaultValue",
                           getProp defaultSettings propertyName);
                         ("propertyName", VStr propertyName);
                         ("value", value)]])
     else ret tt) ;;;
    ret (setProp settings propertyName value).

Fixpoint parseEntries (l : obj) (settings : value) : M value :=
  match l with
  | [] => ret settings
  | entry :: l' =>
      settings' <- parseEntry settings entry ;;
      parseEntries l' settings'
  end.

(** Returns the parsed settings and, second, the caller's record as the
    hook left it: the hook mutates the very object the caller holds. *)
Definition rawRecordToSettings (rawRecord : value) : M (value * value) :=
  let rawRecord := onLoadRecord P rawRecord in
  settings <- parseEntries (entries rawRecord)
                (VObj (createDefaultSettings P)) ;;
  ret (settings, rawRecord).

Definition settingsToRawRecord (settings : value) : value :=
  let rawRecord :=
    fold_left
      (fun rawRecord propertyName =>
         setProp rawRecord propertyName (getProp settings propertyName))
      propertyNames (VObj []) in
  transformObjectRecursively (getTransformer P)
    (onSavingRecord P rawRecord).

(** [cloneSettings] is not [async] and awaits neither of the two
    [async] methods it calls: [record] is a promise, its JSON text is
    that of an object without properties, and what is returned is the
    promise of the settings parsed from the empty record.  The warnings
    of that parse are recorded where the call is made. *)
Definition cloneSettings (settings : value) : M value :=
  let record := VPromise (settingsToRawRecord settings) in
  let cloneRecord := jsonRoundTrip record in
  parsed <- rawRecordToSettings cloneRecord ;;
  ret (VPromise (fst parsed)).

Definition cloneSettingsWrapper (settingsWrapper : PluginSettingsWrapper)
  : M PluginSettingsWrapper :=
  safe <- cloneSettings (safeSettings settingsWrapper) ;;
  plain <- cloneSettings (settings settingsWrapper) ;;
  ret {| safeSettings := safe;
         settings := plain;
         validationMessages := validationMessages settingsWrapper |}.

(** [validationMessage ?? ''] *)
Definition orEmpty (validationMessage : option string) : string :=
  match validationMessage with
  | Some m => m
  | None => ""
  end.

Definition setPropertyImpl (propertyName : string) (value : value)
    (validationMessage : option string) : M unit :=
  st <- get ;;
  let w := currentSettingsWrapper st in
  setCurrent {|
    settings := setProp (settings w) propertyName value;
    validationMessages :=
      assign (validationMessages w) propertyName
        (orEmpty validationMessage);
    safeSettings :=
      setProp (safeSettings w) propertyName
        (if truthy (orEmpty validationMessage)
         then getProp defaultSettings propertyName
         else value)
  |}.

(** [saveToFileImpl] hands [settingsToRawRecord] the wrapper, not the
    wrapper's settings. *)
Definition saveToFileImpl : M unit :=
  st <- get ;;
  saveData (settingsToRawRecord (wrapperObject (currentSettingsWrapper st))).

Definition loadFromFile (isInitialLoad : bool) : M unit :=
  data <- loadData ;;
  setLastSaved createDefaultSettingsWrapper ;;;
  setCurrent createDefaultSettingsWrapper ;;;
  match data with
  | VUndefined | VNull => ret tt
  | _ =>
      if negb (String.eqb (typeOf data) "object") then
        emit (ConsoleError
                ("Invalid settings from data.json. Expected Object, got: "
                 ++ typeOf data))
      else
        parsed <- rawRecordToSettings data ;;
        let parsedSettings := fst parsed in
        let data := snd parsed in
        let validationResult := validate parsedSettings in
        forEach propertyNames
          (fun propertyName =>
             setPropertyImpl propertyName
               (getProp parsedSettings propertyName)
               (lookup validationResult propertyName)) ;;;
        st <- get ;;
        lastSaved <- cloneSettingsWrapper (currentSettingsWrapper st) ;;
        setLastSaved lastSaved ;;;
        st <- get ;;
        let newRecord :=
          settingsToRawRecord (settings (currentSettingsWrapper st)) in
        (if negb (deepEqual newRecord data) then saveToFileImpl
         else ret tt) ;;;
        st <- get ;;
        emit (OnLoadSettings (currentSettingsWrapper st) isInitialLoad)
  end.

Definition saveToFile (context : value) : M unit :=
  st <- get ;;
  if deepEqual (settings (lastSavedSettingsWrapper st))
       (settings (currentSettingsWrapper st))
  then ret tt
  else
    saveToFileImpl ;;;
    st <- get ;;
    emit (OnSaveSettings (currentSettingsWrapper st)
            (lastSavedSettingsWrapper st) context) ;;;
    lastSaved <- cloneSettingsWrapper (currentSettingsWrapper st) ;;
    setLastSaved lastSaved.

(** The editor works on the settings object of the current wrapper in
    place, and may throw after that. *)
Definition runEditor (settingsEditor : Editor) : M unit :=
  fun st =>
    let w := currentSettingsWrapper st in
    let r := settingsEditor (settings w) in
    (match snd r with
     | None => Normal tt
     | Some e => Throw e
     end,
     {| currentSettingsWrapper :=
          {| safeSettings := safeSettings w;
             settings := fst r;
             validationMessages := validationMessages w |};
        lastSavedSettingsWrapper := lastSavedSettingsWrapper st;
        dataJson := dataJson st;
        trace := trace st |}).

(** One turn of the loop in the [finally] block of [edit]. *)
Definition recompute (validationResult : list (string * string))
    (propertyName : string) : M unit :=
  st <- get ;;
  let w := currentSettingsWrapper st in
  let validationMessage := orEmpty (lookup validationResult propertyName) in
  setCurrent {|
    settings := settings w;
    validationMessages :=
      assign (validationMessages w) propertyName validationMessage;
    safeSettings :=
      setProp (safeSettings w) propertyName
        (if truthy validationMessage
         then getProp defaultSettings propertyName
         else getProp (settings w) propertyName)
  |}.

Definition edit (settingsEditor : Editor) : M unit :=
  tryFinally (runEditor settingsEditor)
    (st <- get ;;
     let validationResult :=
       validate (settings (currentSettingsWrapper st)) in
     forEach propertyNames (recompute validationResult)).

(** The result is [validationMessages[propertyName]], which is
    [undefined] ([None]) for a name the wrapper has no message for. *)
Definition setProperty (propertyName : string) (value : value)
  : M (option string) :=
  edit (fun settings => (setProp settings propertyName value, None)) ;;;
  st <- get ;;
  ret (lookup (validationMessages (currentSettingsWrapper st)) propertyName).

Definition editAndSave (settingsEditor : Editor) (context : value)
  : M unit :=
  edit settingsEditor ;;;
  saveToFile context.

End Methods.

(** The state after a computation, and what it completed with. *)
Definition exec {A : Type} (m : M A) (st : State) : State := snd (m st).
Definition result {A : Type} (m : M A) (st : State) : completion A :=
  fst (m st).

(** The records handed to [plugin.saveData], oldest first. *)
Fixpoint writes (events : list event) : list value :=
  match events with
  | [] => []
  | SaveData record :: events' => record :: writes events'
  | _ :: events' => writes events'
  end.

End Manager.


(* ================================================================== *)
(** * States at rest, and what the methods compute *)
(* ================================================================== *)

Module Spec.
Import JS Transformers Manager.

(** The state with further events. *)
Definition withTrace (st : State) (events : list event) : State := {|
  currentSettingsWrapper := currentSettingsWrapper st;
  lastSavedSettingsWrapper := lastSavedSettingsWrapper st;
  dataJson := dataJson st;
  trace := trace st ++ events
|}.

(** Somebody else replaces the host's record. *)
Definition hostHolds (st : State) (data : value) : State := {|
  currentSettingsWrapper := currentSettingsWrapper st;
  lastSavedSettingsWrapper := lastSavedSettingsWrapper st;
  dataJson := data;
  trace := trace st
|}.

Definition withCurrent (st : State) (w : PluginSettingsWrapper) : State := {|
  currentSettingsWrapper := w;
  lastSavedSettingsWrapper := lastSavedSettingsWrapper st;
  dataJson := dataJson st;
  trace := trace st
|}.

Section Closed.
Variable P : Plugin.

(** The loop of [rawRecordToSettings] in closed form: the settings it
    builds and the warnings it prints. *)
Definition parsedEntry (settings : value) (entry : string * value)
  : value :=
  if isValidPropertyName P (fst entry)
  then setProp settings (fst entry) (snd entry)
  else settings.

Definition parseWarning (entry : string * value) : list event :=
  if negb (isValidPropertyName P (fst entry)) then
    [ConsoleWarn ("Unknown property: " ++ fst entry) []]
  else if negb (String.eqb (typeOf (snd entry))
                  (typeOf (getProp (defaultSettings P) (fst entry))))
  then [ConsoleWarn invalidTypeWarning
          [VObj [("defaultValue", getProp (defaultSettings P) (fst entry));
                 ("propertyName", VStr (fst entry));
                 ("value", snd entry)]]]
  else [].

Definition parsedSettings (l : obj) (settings : value) : value :=
  fold_left parsedEntry l settings.

Definition parseWarnings (l : obj) : list event :=
  flat_map parseWarning l.

(** What [cloneSettings] returns, whatever it is given, and the
    warnings of the parse it starts. *)
Definition cloneResult : value :=
  VPromise (parsedSettings (entries (onLoadRecord P (VObj [])))
              (VObj (createDefaultSettings P))).

Definition cloneWarnings : list event :=
  parseWarnings (entries (onLoadRecord P (VObj []))).

Definition clonedWrapper (w : PluginSettingsWrapper)
  : PluginSettingsWrapper := {|
  safeSettings := cloneResult;
  settings := cloneResult;
  validationMessages := validationMessages w
|}.

(** [setPropertyImpl] and the loop body of [edit] on a wrapper. *)
Definition stored (propertyName : string) (value : value)
    (validationMessage : option string) (w : PluginSettingsWrapper)
  : PluginSettingsWrapper := {|
  settings := setProp (settings w) propertyName value;
  validationMessages :=
    assign (validationMessages w) propertyName (orEmpty validationMessage);
  safeSettings :=
    setProp (safeSettings w) propertyName
      (if truthy (orEmpty validationMessage)
       then getProp (defaultSettings P) propertyName
       else value)
|}.

Definition recomputed (validationResult : list (string * string))
    (propertyName : string) (w : PluginSettingsWrapper)
  : PluginSettingsWrapper := {|
  settings := settings w;
  validationMessages :=
    assign (validationMessages w) propertyName
      (orEmpty (lookup validationResult propertyName));
  safeSettings :=
    setProp (safeSettings w) propertyName
      (if truthy (orEmpty (lookup validationResult propertyName))
       then getProp (defaultSettings P) propertyName
       else getProp (settings w) propertyName)
|}.

(** The current wrapper after a structured record was parsed. *)
Definition loadedWrapper (parsed : value) : PluginSettingsWrapper :=
  fold_left
    (fun w propertyName =>
       stored propertyName (getProp parsed propertyName)
         (lookup (validate P parsed) propertyName) w)
    (propertyNames P) (createDefaultSettingsWrapper P).

(** The current wrapper after the [finally] block of [edit]. *)
Definition revalidated (w : PluginSettingsWrapper)
  : PluginSettingsWrapper :=
  let validationResult := validate P (settings w) in
  fold_left
    (fun w propertyName => recomputed validationResult propertyName w)
    (propertyNames P) w.

(** The state in which [loadFromFile] leaves a structured record. *)
Definition loadedState (isInitialLoad : bool) (st : State) : State :=
  let data := onLoadRecord P (dataJson st) in
  let parsed :=
    parsedSettings (entries data) (VObj (createDefaultSettings P)) in
  let current := loadedWrapper parsed in
  let newRecord := settingsToRawRecord P (settings current) in
  let written := settingsToRawRecord P (wrapperObject current) in
  let differs := negb (deepEqual newRecord data) in
  {| currentSettingsWrapper := current;
     lastSavedSettingsWrapper := clonedWrapper current;
     dataJson := if differs then jsonRoundTrip written else dataJson st;
     trace :=
       trace st
       ++ parseWarnings (entries data)
       ++ cloneWarnings ++ cloneWarnings
       ++ (if differs then [SaveData written] else [])
       ++ [OnLoadSettings current isInitialLoad] |}.

(** The state in which [saveToFile] leaves unsaved settings. *)
Definition savedState (context : value) (st : State) : State :=
  let current := currentSettingsWrapper st in
  let written := settingsToRawRecord P (wrapperObject current) in
  {| currentSettingsWrapper := current;
     lastSavedSettingsWrapper := clonedWrapper current;
     dataJson := jsonRoundTrip written;
     trace :=
       trace st
       ++ [SaveData written;
           OnSaveSettings current (lastSavedSettingsWrapper st) context]
       ++ cloneWarnings ++ cloneWarnings |}.

(** The state in which [edit] leaves the manager. *)
Definition editedState (settingsEditor : Editor) (st : State) : State :=
  let w := currentSettingsWrapper st in
  withCurrent st
    (revalidated {| safeSettings := safeSettings w;
                    settings := fst (settingsEditor (settings w));
                    validationMessages := validationMessages w |}).

(** The safe-value rule on a wrapper; an absent message counts as the
    empty one, as in the code's [validationMessage ?? '']. *)
Definition safeValueRule (w : PluginSettingsWrapper) : Prop :=
  forall p, In p (propertyNames P) ->
    getProp (safeSettings w) p =
      if truthy (orEmpty (lookup (validationMessages w) p))
      then getProp (defaultSettings P) p
      else getProp (settings w) p.

(** What the proofs carry along for a state at rest. *)
Definition atRest (st : State) : Prop :=
  isObject (safeSettings (currentSettingsWrapper st))
  /\ safeValueRule (currentSettingsWrapper st).

(** States at rest: the constructor's state, and the state after any
    public method returned or threw, or after the host's record was
    replaced behind the manager's back. *)
Inductive reachable : State -> Prop :=
| reach_construct data events :
    reachable (construct P data events)
| reach_loadFromFile st isInitialLoad :
    reachable st -> reachable (exec (loadFromFile P isInitialLoad) st)
| reach_edit st settingsEditor :
    reachable st -> reachable (exec (edit P settingsEditor) st)
| reach_setProperty st propertyName value :
    reachable st -> reachable (exec (setProperty P propertyName value) st)
| reach_saveToFile st context :
    reachable st -> reachable (exec (saveToFile P context) st)
| reach_editAndSave st settingsEditor context :
    reachable st ->
    reachable (exec (editAndSave P settingsEditor context) st)
| reach_hostHolds st data :
    reachable st -> reachable (hostHolds st data).

(** The record is one [loadFromFile] goes on to parse. *)
Definition structured (data : value) : Prop :=
  data <> VUndefined /\ data <> VNull /\ typeOf data = "object".

End Closed.

(** The same plugin with another transformer returned by
    [getTransformer]. *)
Definition withTransformer (P : Plugin) (T : Transformer) : Plugin := {|
  createDefaultSettings := createDefaultSettings P;
  registerValidators := registerValidators P;
  onLoadRecord := onLoadRecord P;
  onSavingRecord := onSavingRecord P;
  getTransformer := T
|}.

(** ** Plugins used as concrete inputs *)

Definition keepRecord : value -> value := fun record => record.

(** The scenario of the spec: defaults [{retries: 3, name: "x"}] and a
    validator that rejects negative [retries]. *)
Definition retriesValidator : Validator :=
  fun value _ =>
    match value with
    | VNum n => if Z.ltb n 0 then Some "retries must not be negative" else None
    | _ => Some "retries must be a number"
    end.

Definition retriesPlugin : Plugin := {|
  createDefaultSettings := [("retries", VNum 3); ("name", VStr "x")];
  registerValidators := [("retries", retriesValidator)];
  onLoadRecord := keepRecord;
  onSavingRecord := keepRecord;
  getTransformer := defaultTransformer
|}.

Definition setRetries (n : Z) : Editor :=
  fun settings => (setProp settings "retries" (VNum n), None).

(** An editor that sets [retries] and then throws. *)
Definition setRetriesAndThrow (n : Z) : Editor :=
  fun settings => (setProp settings "retries" (VNum n), Some (VStr "boom")).

(** One numeric setting, no validator, the hooks of the base class and
    the default transformer. *)
Definition counterPlugin : Plugin := {|
  createDefaultSettings := [("a", VNum 0)];
  registerValidators := [];
  onLoadRecord := keepRecord;
  onSavingRecord := keepRecord;
  getTransformer := defaultTransformer
|}.

Definition setA (n : Z) : Editor :=
  fun settings => (setProp settings "a" (VNum n), None).

(** One date setting. *)
Definition datePlugin : Plugin := {|
  createDefaultSettings := [("d", VDate "1970-01-01T00:00:00.000Z")];
  registerValidators := [];
  onLoadRecord := keepRecord;
  onSavingRecord := keepRecord;
  getTransformer := defaultTransformer
|}.

(** A date, and the record the save path makes of settings holding it. *)
Definition newYear : string := "2020-01-01T00:00:00.000Z".

Definition savedDateRecord : value :=
  VObj [("d", tagged "DateTransformer" newYear)].

(** Settings of every supported shape, with private properties. *)
Definition sampleSettings : value :=
  VObj [
    ("since", VDate newYear);
    ("_cache", VNum 7);
    ("timeouts", VArr [VDuration "PT1S"; VNull]);
    ("nested", VObj [("_secret", VStr "s"); ("label", VStr "l")])
  ].

End Spec.

(* ================================================================== *)
(** * The remaining public method, and views of the trace *)
(* ================================================================== *)

Module More.
Import JS Transformers Manager Spec.

(** [await v]: what a promise settled with, and any other value itself. *)
Definition awaited (v : value) : value :=
  match v with
  | VPromise settled => settled
  | _ => v
  end.

(** [getSafeCopy].  [cloneSettings] hands back a promise; [ensureSafe]
    then validates and assigns on that promise object, which does not
    change what the promise settles with; and an [async] method that
    returns a promise completes with what the promise settles with. *)
Definition getSafeCopy (P : Plugin) (settings : value) : M value :=
  bind (cloneSettings P settings) (fun safeSettings =>
    let safeSettings := ensureSafe P safeSettings in
    ret (awaited safeSettings)).

(** The calls of [plugin.onLoadSettings] in a trace, oldest first. *)
Fixpoint loadNotifications (events : list event)
  : list (PluginSettingsWrapper * bool) :=
  match events with
  | [] => []
  | OnLoadSettings w isInitialLoad :: events' =>
      (w, isInitialLoad) :: loadNotifications events'
  | _ :: events' => loadNotifications events'
  end.

(** The calls of [plugin.onSaveSettings] in a trace, oldest first. *)
Fixpoint saveNotifications (events : list event)
  : list (PluginSettingsWrapper * PluginSettingsWrapper * value) :=
  match events with
  | [] => []
  | OnSaveSettings newWrapper oldWrapper context :: events' =>
      (newWrapper, oldWrapper, context) :: saveNotifications events'
  | _ :: events' => saveNotifications events'
  end.

(** What was printed on the console, oldest first. *)
Fixpoint consoleOutput (events : list event) : list event :=
  match events with
  | [] => []
  | ConsoleError message :: events' =>
      ConsoleError message :: consoleOutput events'
  | ConsoleWarn message args :: events' =>
      ConsoleWarn message args :: consoleOutput events'
  | _ :: events' => consoleOutput events'
  end.

(** The message [validate] is to report for a property, given the
    validator registered for it, if any. *)
Definition reported (validator : option Validator) (settings : value)
    (propertyName : string) : option string :=
  match validator with
  | Some f =>
      match f (getProp settings propertyName) settings with
      | Some validationMessage =>
          if truthy validationMessage then Some validationMessage else None
      | None => None
      end
  | None => None
  end.

(** Two validators for [retries], registered one after the other. *)
Definition lenientValidator : Validator :=
  fun value _ =>
    match value with
    | VNum n => if Z.ltb n (-10) then Some "retries below -10" else None
    | _ => None
    end.

Definition twiceRegisteredPlugin : Plugin := {|
  createDefaultSettings := [("retries", VNum 3); ("name", VStr "x")];
  registerValidators :=
    [("retries", retriesValidator); ("retries", lenientValidator)];
  onLoadRecord := keepRecord;
  onSavingRecord := keepRecord;
  getTransformer := defaultTransformer
|}.

End More.
(* ================================================================== *)
(** * Properties of objects as property lists *)
(* ================================================================== *)

Module ObjectFacts.
Import JS.

Lemma lookup_assign_same (A : Type) (o : list (string * A)) k x :
  lookup (assign o k x) k = Some x.
Proof.
  induction o as [|[k' y] o IH]; simpl.
  - now rewrite String.eqb_refl.
  - destruct (String.eqb k' k) eqn:E; simpl; rewrite E; auto.
Qed.

Lemma lookup_assign_other (A : Type) (o : list (string * A)) k k' x :
  k <> k' -> lookup (assign o k x) k' = lookup o k'.
Proof.
  intros Hne. induction o as [|[k0 y] o IH]; simpl.
  - destruct (String.eqb_spec k k'); [contradiction | reflexivity].
  - destruct (String.eqb_spec k0 k) as [->|Hk]; simpl.
    + destruct (String.eqb_spec k k'); [contradiction | reflexivity].
    + now rewrite IH.
Qed.

Lemma keys_assign (A : Type) (o : list (string * A)) k x k' :
  In k' (keys (assign o k x)) <-> k' = k \/ In k' (keys o).
Proof.
  unfold keys. induction o as [|[k0 y] o IH]; simpl.
  - intuition.
  - destruct (String.eqb_spec k0 k) as [->|Hk]; simpl.
    + intuition.
    + rewrite IH. intuition.
Qed.

Lemma lookup_none_keys (A : Type) (o : list (string * A)) k :
  lookup o k = None <-> ~ In k (keys o).
Proof.
  unfold keys. induction o as [|[k0 y] o IH]; simpl.
  - intuition.
  - destruct (String.eqb_spec k0 k) as [->|Hk].
    + split; [discriminate | intros H; exfalso; apply H; now left].
    + rewrite IH. intuition.
Qed.

Lemma isObject_setProp v k x : isObject v -> isObject (setProp v k x).
Proof. intros [fs ->]. simpl. now eexists. Qed.

Lemma getProp_setProp_same v k x :
  isObject v -> getProp (setProp v k x) k = x.
Proof. intros [fs ->]. simpl. now rewrite lookup_assign_same. Qed.

Lemma getProp_setProp_other v k k' x :
  k <> k' -> getProp (setProp v k x) k' = getProp v k'.
Proof.
  intros Hne. destruct v; simpl; auto. now rewrite lookup_assign_other.
Qed.

Lemma getAllKeys_setProp v k x k' :
  isObject v ->
  In k' (getAllKeys (setProp v k x)) <-> k' = k \/ In k' (getAllKeys v).
Proof. intros [fs ->]. simpl. apply keys_assign. Qed.

Lemma existsb_eqb_in k l :
  existsb (String.eqb k) l = true <-> In k l.
Proof.
  rewrite existsb_exists. split.
  - intros [x [Hin Heq]]. apply String.eqb_eq in Heq. now subst.
  - intros Hin. exists k. split; [assumption | apply String.eqb_refl].
Qed.

End ObjectFacts.

(* ================================================================== *)
(** * The methods in closed form *)
(* ================================================================== *)

Module Runs.
Import JS Transformers Manager Spec ObjectFacts.

Lemma bind_normal (A B : Type) (m : M A) (f : A -> M B) st a st' :
  m st = (Normal a, st') -> bind m f st = f a st'.
Proof. unfold bind. now intros ->. Qed.

(** Runs the first computation of a [bind] with a closed form. *)
Ltac run_by tac :=
  etransitivity; [eapply bind_normal; tac | cbv beta].
Ltac run := run_by reflexivity.

Lemma withTrace_nil st : withTrace st [] = st.
Proof. destruct st. unfold withTrace. simpl. now rewrite app_nil_r. Qed.

Lemma withTrace_app st a b :
  withTrace (withTrace st a) b = withTrace st (a ++ b).
Proof. unfold withTrace. simpl. now rewrite app_assoc. Qed.

Section Runs.
Variable P : Plugin.

Lemma parseEntry_run settings entry st :
  parseEntry P settings entry st
  = (Normal (parsedEntry P settings entry),
     withTrace st (parseWarning P entry)).
Proof.
  unfold parseEntry, parsedEntry, parseWarning.
  destruct (isValidPropertyName P (fst entry)); simpl.
  - destruct (String.eqb _ _); simpl.
    + unfold bind, ret. simpl. now rewrite withTrace_nil.
    + reflexivity.
  - reflexivity.
Qed.

Lemma parseEntries_run l : forall settings st,
  parseEntries P l settings st
  = (Normal (parsedSettings P l settings),
     withTrace st (parseWarnings P l)).
Proof.
  induction l as [|entry l IH]; intros settings st; simpl.
  - unfold ret. now rewrite withTrace_nil.
  - run_by ltac:(apply parseEntry_run).
    rewrite IH, withTrace_app. reflexivity.
Qed.

Lemma rawRecordToSettings_run rawRecord st :
  rawRecordToSettings P rawRecord st
  = (Normal (parsedSettings P (entries (onLoadRecord P rawRecord))
               (VObj (createDefaultSettings P)),
             onLoadRecord P rawRecord),
     withTrace st (parseWarnings P (entries (onLoadRecord P rawRecord)))).
Proof.
  unfold rawRecordToSettings.
  run_by ltac:(apply parseEntries_run). reflexivity.
Qed.

Lemma cloneSettings_run settings st :
  cloneSettings P settings st
  = (Normal (cloneResult P), withTrace st (cloneWarnings P)).
Proof.
  unfold cloneSettings.
  run_by ltac:(apply rawRecordToSettings_run). reflexivity.
Qed.

Lemma cloneSettingsWrapper_run w st :
  cloneSettingsWrapper P w st
  = (Normal (clonedWrapper P w),
     withTrace st (cloneWarnings P ++ cloneWarnings P)).
Proof.
  unfold cloneSettingsWrapper.
  run_by ltac:(apply cloneSettings_run).
  run_by ltac:(apply cloneSettings_run).
  unfold ret. now rewrite withTrace_app.
Qed.

Lemma setPropertyImpl_run propertyName value validationMessage st :
  setPropertyImpl P propertyName value validationMessage st
  = (Normal tt,
     withCurrent st
       (stored P propertyName value validationMessage
          (currentSettingsWrapper st))).
Proof. reflexivity. Qed.

Lemma recompute_run validationResult propertyName st :
  recompute P validationResult propertyName st
  = (Normal tt,
     withCurrent st
       (recomputed P validationResult propertyName
          (currentSettingsWrapper st))).
Proof. reflexivity. Qed.

Lemma withCurrent_same st : withCurrent st (currentSettingsWrapper st) = st.
Proof. now destruct st. Qed.

(** A loop whose body rewrites the current wrapper is a fold over the
    wrapper. *)
Lemma forEach_current (A : Type) (body : A -> M unit)
    (f : PluginSettingsWrapper -> A -> PluginSettingsWrapper) :
  (forall x st,
     body x st = (Normal tt, withCurrent st (f (currentSettingsWrapper st) x))) ->
  forall l st,
    forEach l body st
    = (Normal tt, withCurrent st (fold_left f l (currentSettingsWrapper st))).
Proof.
  intros Hbody l. induction l as [|x l IH]; intros st; simpl.
  - unfold ret. now rewrite withCurrent_same.
  - run_by ltac:(apply Hbody). rewrite IH. reflexivity.
Qed.

Lemma saveToFileImpl_run st :
  saveToFileImpl P st
  = (Normal tt,
     {| currentSettingsWrapper := currentSettingsWrapper st;
        lastSavedSettingsWrapper := lastSavedSettingsWrapper st;
        dataJson :=
          jsonRoundTrip
            (settingsToRawRecord P
               (wrapperObject (currentSettingsWrapper st)));
        trace :=
          trace st
          ++ [SaveData
                (settingsToRawRecord P
                   (wrapperObject (currentSettingsWrapper st)))] |}).
Proof. reflexivity. Qed.

Lemma loadFromFile_absent isInitialLoad st :
  dataJson st = VUndefined \/ dataJson st = VNull ->
  loadFromFile P isInitialLoad st
  = (Normal tt,
     {| currentSettingsWrapper := createDefaultSettingsWrapper P;
        lastSavedSettingsWrapper := createDefaultSettingsWrapper P;
        dataJson := dataJson st;
        trace := trace st |}).
Proof.
  intros H. unfold loadFromFile.
  run. run. run. simpl. destruct H as [-> | ->]; reflexivity.
Qed.

Lemma loadFromFile_malformed isInitialLoad st :
  dataJson st <> VUndefined ->
  typeOf (dataJson st) <> "object" ->
  loadFromFile P isInitialLoad st
  = (Normal tt,
     {| currentSettingsWrapper := createDefaultSettingsWrapper P;
        lastSavedSettingsWrapper := createDefaultSettingsWrapper P;
        dataJson := dataJson st;
        trace :=
          trace st
          ++ [ConsoleError
                ("Invalid settings from data.json. Expected Object, got: "
                 ++ typeOf (dataJson st))] |}).
Proof.
  intros Hu Ht. unfold loadFromFile.
  run. run. run. simpl.
  destruct (dataJson st); simpl in *; try reflexivity; congruence.
Qed.

Lemma loadFromFile_structured isInitialLoad st :
  structured (dataJson st) ->
  loadFromFile P isInitialLoad st = (Normal tt, loadedState P isInitialLoad st).
Proof.
  intros (Hu & Hn & Ht). unfold loadFromFile.
  run. run. run.
  assert (Hbranch : forall (A : Type) (a b : A),
    match dataJson st with
    | VUndefined | VNull => a
    | _ => if negb (String.eqb (typeOf (dataJson st)) "object") then b else a
    end = a) by (intros; rewrite Ht; simpl; now destruct (dataJson st)).
  transitivity
    ((if negb (String.eqb (typeOf (dataJson st)) "object")
      then ret tt
      else
        parsed <- rawRecordToSettings P (dataJson st) ;;
        forEach (propertyNames P)
          (fun propertyName =>
             setPropertyImpl P propertyName
               (getProp (fst parsed) propertyName)
               (lookup (validate P (fst parsed)) propertyName)) ;;;
        st0 <- get ;;
        lastSaved <- cloneSettingsWrapper P (currentSettingsWrapper st0) ;;
        setLastSaved lastSaved ;;;
        st1 <- get ;;
        (if negb (deepEqual
                    (settingsToRawRecord P
                       (settings (currentSettingsWrapper st1)))
                    (snd parsed))
         then saveToFileImpl P else ret tt) ;;;
        st2 <- get ;;
        emit (OnLoadSettings (currentSettingsWrapper st2) isInitialLoad))
       (snd (setCurrent (createDefaultSettingsWrapper P)
               (snd (setLastSaved (createDefaultSettingsWrapper P) st))))).
  { simpl. destruct (dataJson st); simpl in *; try reflexivity; congruence. }
  rewrite Ht. simpl negb. cbv iota.
  run_by ltac:(apply rawRecordToSettings_run).
  run_by ltac:(apply (forEach_current
    (fun propertyName =>
       setPropertyImpl P propertyName
         (getProp (parsedSettings P (entries (onLoadRecord P (dataJson st)))
                     (VObj (createDefaultSettings P))) propertyName)
         (lookup (validate P
                    (parsedSettings P (entries (onLoadRecord P (dataJson st)))
                       (VObj (createDefaultSettings P)))) propertyName))
    (fun w propertyName =>
       stored P propertyName
         (getProp (parsedSettings P (entries (onLoadRecord P (dataJson st)))
                     (VObj (createDefaultSettings P))) propertyName)
         (lookup (validate P
                    (parsedSettings P (entries (onLoadRecord P (dataJson st)))
                       (VObj (createDefaultSettings P)))) propertyName) w));
    intros; apply setPropertyImpl_run).
  run.
  run_by ltac:(apply cloneSettingsWrapper_run).
  run. run.
  unfold loadedState, loadedWrapper. simpl.
  destruct (negb (deepEqual _ _)).
  - run_by ltac:(apply saveToFileImpl_run). run.
    unfold emit. simpl. repeat rewrite <- app_assoc. reflexivity.
  - run. run.
    unfold emit. simpl. repeat rewrite <- app_assoc. reflexivity.
Qed.

Lemma saveToFile_clean context st :
  deepEqual (settings (lastSavedSettingsWrapper st))
    (settings (currentSettingsWrapper st)) = true ->
  saveToFile P context st = (Normal tt, st).
Proof.
  intros H. unfold saveToFile. run. now rewrite H.
Qed.

Lemma saveToFile_dirty context st :
  deepEqual (settings (lastSavedSettingsWrapper st))
    (settings (currentSettingsWrapper st)) = false ->
  saveToFile P context st = (Normal tt, savedState P context st).
Proof.
  intros H. unfold saveToFile. run. rewrite H.
  run_by ltac:(apply saveToFileImpl_run). run. run.
  run_by ltac:(apply cloneSettingsWrapper_run).
  unfold setLastSaved, savedState. simpl.
  repeat rewrite <- app_assoc. reflexivity.
Qed.

Lemma edit_run settingsEditor st :
  edit P settingsEditor st
  = (match snd (settingsEditor (settings (currentSettingsWrapper st))) with
     | None => Normal tt
     | Some e => Throw e
     end,
     editedState P settingsEditor st).
Proof.
  unfold edit, tryFinally, runEditor.
  match goal with
  | |- context [bind get ?f ?s] =>
      replace (bind get f s) with (f s s) by reflexivity
  end.
  cbv beta.
  rewrite (forEach_current
             (recompute P
                (validate P (fst (settingsEditor
                                    (settings (currentSettingsWrapper st))))))
             (fun w propertyName =>
                recomputed P
                  (validate P (fst (settingsEditor
                                      (settings (currentSettingsWrapper st)))))
                  propertyName w))
    by (intros; apply recompute_run).
  reflexivity.
Qed.

Lemma setProperty_run propertyName value st :
  let st' :=
    editedState P (fun settings => (setProp settings propertyName value, None))
      st in
  setProperty P propertyName value st
  = (Normal (lookup (validationMessages (currentSettingsWrapper st'))
               propertyName),
     st').
Proof.
  intros st'. unfold setProperty.
  run_by ltac:(rewrite edit_run; reflexivity). reflexivity.
Qed.

Lemma editAndSave_run settingsEditor context st :
  editAndSave P settingsEditor context st
  = match snd (settingsEditor (settings (currentSettingsWrapper st))) with
    | None => saveToFile P context (editedState P settingsEditor st)
    | Some e => (Throw e, editedState P settingsEditor st)
    end.
Proof.
  unfold editAndSave, bind. rewrite edit_run.
  now destruct (snd (settingsEditor _)).
Qed.

End Runs.

End Runs.

(* ================================================================== *)
(** * The loops over the property names *)
(* ================================================================== *)

Module Loops.
Import JS Transformers Manager Spec ObjectFacts Runs.

(** Assigning [g p] to every name [p] of a list, in list order. *)
Lemma fold_setProp (g : string -> value) l : forall v,
  isObject v ->
  let v' := fold_left (fun v p => setProp v p (g p)) l v in
  isObject v'
  /\ (forall p, In p l -> getProp v' p = g p)
  /\ (forall p, ~ In p l -> getProp v' p = getProp v p)
  /\ (forall k, In k (getAllKeys v') <-> In k l \/ In k (getAllKeys v)).
Proof.
  induction l as [|q l IH]; intros v Hv; simpl.
  - repeat split; auto; tauto.
  - destruct (IH (setProp v q (g q)) (isObject_setProp q (g q) Hv))
      as (Hobj & Hin & Hout & Hkeys).
    split; [assumption|]. split; [|split].
    + intros p [-> | Hp].
      * destruct (in_dec string_dec p l) as [Hl | Hl]; [now apply Hin|].
        rewrite (Hout p Hl). now apply getProp_setProp_same.
      * now apply Hin.
    + intros p Hp. rewrite Hout by tauto.
      apply getProp_setProp_other. intros ->. tauto.
    + intros k. rewrite Hkeys, (getAllKeys_setProp q (g q) k Hv).
      intuition (subst; auto).
Qed.

Lemma fold_assign (A : Type) (h : string -> A) l : forall m,
  let m' := fold_left (fun m p => assign m p (h p)) l m in
  (forall p, In p l -> lookup m' p = Some (h p))
  /\ (forall p, ~ In p l -> lookup m' p = lookup m p)
  /\ (forall k, In k (keys m') <-> In k l \/ In k (keys m)).
Proof.
  induction l as [|q l IH]; intros m; simpl.
  - repeat split; auto; tauto.
  - destruct (IH (assign m q (h q))) as (Hin & Hout & Hkeys).
    split; [|split].
    + intros p [-> | Hp].
      * destruct (in_dec string_dec p l) as [Hl | Hl]; [now apply Hin|].
        rewrite (Hout p Hl). apply lookup_assign_same.
      * now apply Hin.
    + intros p Hp. rewrite Hout by tauto.
      apply lookup_assign_other. intros ->. tauto.
    + intros k. rewrite Hkeys, keys_assign. intuition (subst; auto).
Qed.

Section Loops.
Variable P : Plugin.

(** The three views after the loop of [edit]. *)
Lemma recomputed_views validationResult l : forall w,
  let w' := fold_left (fun w p => recomputed P validationResult p w) l w in
  settings w' = settings w
  /\ validationMessages w'
     = fold_left (fun m p => assign m p (orEmpty (lookup validationResult p)))
         l (validationMessages w)
  /\ safeSettings w'
     = fold_left
         (fun v p =>
            setProp v p
              (if truthy (orEmpty (lookup validationResult p))
               then getProp (defaultSettings P) p
               else getProp (settings w) p))
         l (safeSettings w).
Proof.
  induction l as [|q l IH]; intros w; simpl; [auto|].
  destruct (IH (recomputed P validationResult q w)) as (Hs & Hm & Hsafe).
  simpl in *. auto.
Qed.

(** The three views after the loop of [loadFromFile]. *)
Lemma stored_views (parsed : value) (r : list (string * string)) l :
  forall w,
  let w' :=
    fold_left (fun w p => stored P p (getProp parsed p) (lookup r p) w) l w in
  settings w'
  = fold_left (fun v p => setProp v p (getProp parsed p)) l (settings w)
  /\ validationMessages w'
     = fold_left (fun m p => assign m p (orEmpty (lookup r p)))
         l (validationMessages w)
  /\ safeSettings w'
     = fold_left
         (fun v p =>
            setProp v p
              (if truthy (orEmpty (lookup r p))
               then getProp (defaultSettings P) p
               else getProp parsed p))
         l (safeSettings w).
Proof.
  induction l as [|q l IH]; intros w; simpl; [auto|].
  destruct (IH (stored P q (getProp parsed q) (lookup r q) w))
    as (Hs & Hm & Hsafe).
  simpl in *. auto.
Qed.

(** What [edit] leaves in the current wrapper, property by property. *)
Lemma revalidated_spec w :
  isObject (safeSettings w) ->
  let w' := revalidated P w in
  settings w' = settings w
  /\ isObject (safeSettings w')
  /\ forall p, In p (propertyNames P) ->
       lookup (validationMessages w') p
       = Some (orEmpty (lookup (validate P (settings w)) p))
       /\ getProp (safeSettings w') p
          = if truthy (orEmpty (lookup (validate P (settings w)) p))
            then getProp (defaultSettings P) p
            else getProp (settings w) p.
Proof.
  intros Hobj w'. subst w'. unfold revalidated.
  destruct (recomputed_views (validate P (settings w)) (propertyNames P) w)
    as (Hs & Hm & Hsafe).
  cbv zeta in *. rewrite Hs, Hm, Hsafe.
  destruct (fold_setProp
              (fun p => if truthy (orEmpty (lookup (validate P (settings w)) p))
                        then getProp (defaultSettings P) p
                        else getProp (settings w) p)
              (propertyNames P) Hobj) as (Ho & Hin & _ & _).
  destruct (fold_assign
              (fun p => orEmpty (lookup (validate P (settings w)) p))
              (propertyNames P) (validationMessages w)) as (Hmin & _ & _).
  cbv zeta in *. repeat split; auto.
Qed.

(** The messages after [edit] need nothing of the wrapper before. *)
Lemma revalidated_messages w p :
  In p (propertyNames P) ->
  lookup (validationMessages (revalidated P w)) p
  = Some (orEmpty (lookup (validate P (settings w)) p)).
Proof.
  intros Hp. unfold revalidated.
  destruct (recomputed_views (validate P (settings w)) (propertyNames P) w)
    as (_ & Hm & _).
  cbv zeta in *. rewrite Hm.
  now apply (fold_assign
               (fun p => orEmpty (lookup (validate P (settings w)) p))).
Qed.

(** What [loadFromFile] leaves in the current wrapper for a structured
    record, property by property, and the names of its three views. *)
Lemma loadedWrapper_spec parsed :
  let w' := loadedWrapper P parsed in
  isObject (safeSettings w')
  /\ isObject (settings w')
  /\ (forall p, In p (propertyNames P) ->
        getProp (settings w') p = getProp parsed p
        /\ lookup (validationMessages w') p
           = Some (orEmpty (lookup (validate P parsed) p))
        /\ getProp (safeSettings w') p
           = if truthy (orEmpty (lookup (validate P parsed) p))
             then getProp (defaultSettings P) p
             else getProp parsed p)
  /\ (forall k, In k (getAllKeys (settings w')) <-> In k (propertyNames P))
  /\ (forall k, In k (getAllKeys (safeSettings w')) <-> In k (propertyNames P))
  /\ (forall k, In k (keys (validationMessages w')) <-> In k (propertyNames P)).
Proof.
  intros w'. subst w'. unfold loadedWrapper.
  destruct (stored_views parsed (validate P parsed) (propertyNames P)
              (createDefaultSettingsWrapper P)) as (Hs & Hm & Hsafe).
  cbv zeta in *. rewrite Hs, Hm, Hsafe. clear Hs Hm Hsafe.
  assert (Hd : isObject (VObj (createDefaultSettings P))) by now eexists.
  destruct (fold_setProp (fun p => getProp parsed p) (propertyNames P) Hd)
    as (Ho1 & Hin1 & _ & Hk1).
  destruct (fold_setProp
              (fun p => if truthy (orEmpty (lookup (validate P parsed) p))
                        then getProp (defaultSettings P) p
                        else getProp parsed p)
              (propertyNames P) Hd) as (Ho2 & Hin2 & _ & Hk2).
  destruct (fold_assign (fun p => orEmpty (lookup (validate P parsed) p))
              (propertyNames P) []) as (Hin3 & _ & Hk3).
  cbv zeta in *. simpl safeSettings. simpl settings.
  simpl validationMessages.
  split; [assumption|]. split; [assumption|]. split; [auto|].
  split; [|split].
  - intros k. rewrite Hk1. unfold propertyNames. simpl. tauto.
  - intros k. rewrite Hk2. unfold propertyNames. simpl. tauto.
  - intros k. rewrite Hk3. simpl. tauto.
Qed.

End Loops.

End Loops.

(* ================================================================== *)
(** * The transformer chain *)
(* ================================================================== *)

Module RoundTrip.
Import JS Transformers ObjectFacts.

Lemma deepEqual_arr xs ys :
  deepEqual (VArr xs) (VArr ys) = itemsDeepEqual xs ys.
Proof.
  reflexivity.
Qed.

Lemma deepEqual_obj fs gs :
  deepEqual (VObj fs) (VObj gs)
  = Nat.eqb (List.length fs) (List.length gs) && propsDeepEqual gs fs.
Proof.
  simpl. f_equal.
  induction fs as [|[k x] fs IH]; [reflexivity|]. simpl. now rewrite IH.
Qed.

Lemma transformForward_obj T fs :
  transformForward T (VObj fs) = transformValue T (VObj (forwardFields T fs)).
Proof.
  simpl. do 2 f_equal.
  induction fs as [|[k x] fs IH]; [reflexivity|]. simpl.
  destruct (omitsProperty T k); now rewrite IH.
Qed.

Lemma transformBackward_obj T fs :
  transformBackward T (VObj fs) = restoreValue T (VObj (backwardFields T fs)).
Proof.
  simpl. do 2 f_equal.
  induction fs as [|[k x] fs IH]; [reflexivity|]. simpl. now rewrite IH.
Qed.

Lemma stripPrivate_obj isPrivate fs :
  stripPrivate isPrivate (VObj fs) = VObj (strippedFields isPrivate fs).
Proof.
  simpl. f_equal.
  induction fs as [|[k x] fs IH]; [reflexivity|]. simpl.
  destruct (isPrivate k); now rewrite IH.
Qed.

Lemma supported_obj fs :
  supported (VObj fs)
  = negb (existsb (String.eqb transformerIdKey) (keys fs))
    && allFields supported fs.
Proof.
  simpl. f_equal.
  induction fs as [|[k x] fs IH]; [reflexivity|]. simpl. now rewrite IH.
Qed.

Lemma wellFormed_obj fs :
  wellFormed (VObj fs) = distinctKeys (keys fs) && allFields wellFormed fs.
Proof.
  simpl. f_equal.
  induction fs as [|[k x] fs IH]; [reflexivity|]. simpl. now rewrite IH.
Qed.

(** ** Deep equality is reflexive on well-formed values *)

Lemma lookup_distinct (A : Type) (o : list (string * A)) k x :
  distinctKeys (keys o) = true -> In (k, x) o -> lookup o k = Some x.
Proof.
  induction o as [|[k0 y] o IH]; simpl; [contradiction|].
  intros Hd [Heq | Hin].
  - inversion Heq; subst. now rewrite String.eqb_refl.
  - apply andb_prop in Hd. destruct Hd as [Hfresh Hd].
    destruct (String.eqb_spec k0 k) as [->|Hne]; [|auto].
    exfalso. apply negb_true_iff in Hfresh.
    assert (Hk : existsb (String.eqb k) (keys o) = true).
    { apply existsb_eqb_in. unfold keys. apply in_map_iff.
      now exists (k, x). }
    congruence.
Qed.

Lemma propsDeepEqual_all gs fs :
  (forall k x, In (k, x) fs -> lookup gs k = Some x /\ deepEqual x x = true) ->
  propsDeepEqual gs fs = true.
Proof.
  induction fs as [|[k x] fs IH]; intros H; simpl; [reflexivity|].
  destruct (H k x) as [-> ->]; [now left|]. simpl.
  apply IH. intros k' x' Hin. apply H. now right.
Qed.

Lemma allFields_in test fs k x :
  allFields test fs = true -> In (k, x) fs -> test x = true.
Proof.
  induction fs as [|[k0 y] fs IH]; simpl; [contradiction|].
  intros Ha [Heq | Hin]; apply andb_prop in Ha; destruct Ha as [Hx Ha].
  - now inversion Heq; subst.
  - auto.
Qed.

Lemma deepEqual_refl v : wellFormed v = true -> deepEqual v v = true.
Proof.
  induction v as [| |b|n|s|d|d|l IH|fs IH|v IH] using value_ind;
    intros Hwf.
  - reflexivity.
  - reflexivity.
  - now destruct b.
  - apply Z.eqb_refl.
  - apply String.eqb_refl.
  - apply String.eqb_refl.
  - apply String.eqb_refl.
  - rewrite deepEqual_arr. simpl in Hwf.
    induction l as [|x l IHl]; simpl; [reflexivity|].
    simpl in Hwf. apply andb_prop in Hwf. destruct Hwf as [Hx Hl].
    inversion IH; subst. rewrite H1 by assumption. simpl. auto.
  - rewrite deepEqual_obj, Nat.eqb_refl. simpl.
    rewrite wellFormed_obj in Hwf. apply andb_prop in Hwf.
    destruct Hwf as [Hd Ha].
    apply propsDeepEqual_all. intros k x Hin. split.
    + now apply lookup_distinct.
    + rewrite Forall_forall in IH. apply (IH (k, x) Hin).
      apply (allFields_in _ _ _ _ Ha Hin).
  - reflexivity.
Qed.

(** ** The default chain at one level *)

Section DefaultChain.
Variable isPrivate : string -> bool.
Local Abbreviation T := (defaultChain isPrivate).

Lemma chain_omits k : omitsProperty T k = isPrivate k.
Proof. simpl. now rewrite !orb_false_r. Qed.

Lemma chain_transformValue v :
  transformValue T v
  = match v with
    | VDate iso => tagged "DateTransformer" iso
    | VDuration iso => tagged "DurationTransformer" iso
    | _ => v
    end.
Proof. now destruct v. Qed.

Lemma chain_restore_unmarked v :
  getProp v transformerIdKey = VUndefined -> restoreValue T v = v.
Proof.
  intros H. simpl. unfold untag. rewrite H. simpl. now rewrite H.
Qed.

Lemma strippedFields_keys fs k :
  In k (keys (strippedFields isPrivate fs)) -> In k (keys fs).
Proof.
  induction fs as [|[k0 x] fs IH]; simpl; [auto|].
  destruct (isPrivate k0); simpl; intuition.
Qed.

Lemma roundTrip_fields fs :
  Forall (fun kv =>
            supported (snd kv) = true ->
            transformBackward T (transformForward T (snd kv))
            = stripPrivate isPrivate (snd kv)) fs ->
  allFields supported fs = true ->
  backwardFields T (forwardFields T fs) = strippedFields isPrivate fs.
Proof.
  induction fs as [|[k x] fs IH]; intros HF Ha; [reflexivity|].
  inversion HF as [|? ? Hx HF']; subst. simpl in Hx.
  simpl in Ha. apply andb_prop in Ha. destruct Ha as [Hsx Ha].
  change (forwardFields T ((k, x) :: fs))
    with (if omitsProperty T k then forwardFields T fs
          else (k, transformForward T x) :: forwardFields T fs).
  rewrite chain_omits. simpl strippedFields.
  destruct (isPrivate k); [now apply IH|].
  simpl backwardFields. rewrite Hx by assumption. now rewrite IH.
Qed.

(** Backward after forward removes the private properties and nothing
    else. *)
Lemma roundTrip_equal v :
  supported v = true ->
  transformBackward T (transformForward T v) = stripPrivate isPrivate v.
Proof.
  induction v as [| |b|n|s|d|d|l IH|fs IH|v IH] using value_ind;
    intros Hs; try reflexivity.
  - change (transformForward T (VArr l))
      with (transformValue T (VArr (map (transformForward T) l))).
    rewrite chain_transformValue.
    change (transformBackward T (VArr (map (transformForward T) l)))
      with (restoreValue T
              (VArr (map (transformBackward T)
                       (map (transformForward T) l)))).
    rewrite chain_restore_unmarked by reflexivity.
    change (stripPrivate isPrivate (VArr l))
      with (VArr (map (stripPrivate isPrivate) l)).
    f_equal. rewrite map_map. apply map_ext_in.
    intros x Hx. rewrite Forall_forall in IH. apply IH; [assumption|].
    simpl in Hs. rewrite forallb_forall in Hs. now apply Hs.
  - rewrite supported_obj in Hs. apply andb_prop in Hs.
    destruct Hs as [Hkey Ha].
    rewrite transformForward_obj, chain_transformValue.
    rewrite transformBackward_obj, stripPrivate_obj.
    rewrite (roundTrip_fields IH Ha).
    apply chain_restore_unmarked. simpl.
    replace (lookup (strippedFields isPrivate fs) transformerIdKey)
      with (@None value); [reflexivity|].
    symmetry. apply lookup_none_keys. intros Hin.
    apply strippedFields_keys in Hin.
    apply negb_true_iff in Hkey.
    apply existsb_eqb_in in Hin. congruence.
Qed.

Lemma strippedFields_distinct fs :
  distinctKeys (keys fs) = true ->
  distinctKeys (keys (strippedFields isPrivate fs)) = true.
Proof.
  induction fs as [|[k x] fs IH]; simpl; [auto|].
  intros Hd. apply andb_prop in Hd. destruct Hd as [Hfresh Hd].
  destruct (isPrivate k); simpl; [auto|].
  rewrite IH by assumption. rewrite andb_true_r.
  apply negb_true_iff. apply negb_true_iff in Hfresh.
  destruct (existsb (String.eqb k) (keys (strippedFields isPrivate fs)))
    eqn:E; [|reflexivity].
  apply existsb_eqb_in in E. apply strippedFields_keys in E.
  apply existsb_eqb_in in E. congruence.
Qed.

Lemma stripPrivate_wellFormed v :
  wellFormed v = true -> wellFormed (stripPrivate isPrivate v) = true.
Proof.
  induction v as [| |b|n|s|d|d|l IH|fs IH|v IH] using value_ind;
    intros Hwf; try reflexivity.
  - simpl in *. rewrite forallb_forall in *.
    intros y Hy. apply in_map_iff in Hy. destruct Hy as (x & <- & Hx).
    rewrite Forall_forall in IH. apply IH; auto.
  - rewrite stripPrivate_obj, wellFormed_obj.
    rewrite wellFormed_obj in Hwf. apply andb_prop in Hwf.
    destruct Hwf as [Hd Ha].
    rewrite strippedFields_distinct by assumption. simpl.
    clear Hd. induction fs as [|[k x] fs IHfs]; [reflexivity|].
    inversion IH as [|? ? Hx IH']; subst. simpl in Hx.
    simpl in Ha. apply andb_prop in Ha. destruct Ha as [Hwx Ha].
    simpl. destruct (isPrivate k); [now apply IHfs|].
    simpl. rewrite Hx by assumption. simpl. now apply IHfs.
Qed.

End DefaultChain.

(** ** The order of the members *)

Lemma group_forward_order t ts v :
  transformValue (GroupTransformer (t :: ts)) v
  = transformValue (GroupTransformer ts) (transformValue t v).
Proof. reflexivity. Qed.

Lemma group_backward_order t ts v :
  restoreValue (GroupTransformer (t :: ts)) v
  = restoreValue t (restoreValue (GroupTransformer ts) v).
Proof. simpl. now rewrite fold_left_app. Qed.

End RoundTrip.

(* ================================================================== *)
(** * The snapshot at rest *)
(* ================================================================== *)

Module Snapshot.
Import JS Transformers Manager Spec ObjectFacts Runs Loops.

Lemma writes_app a b : writes (a ++ b) = writes a ++ writes b.
Proof.
  induction a as [|e a IH]; simpl; [reflexivity|].
  destruct e; simpl; now rewrite IH.
Qed.

Section Snapshot.
Variable P : Plugin.

Lemma default_atRest w last data events :
  w = createDefaultSettingsWrapper P ->
  atRest P {| currentSettingsWrapper := w;
            lastSavedSettingsWrapper := last;
            dataJson := data;
            trace := events |}.
Proof.
  intros ->. split; simpl.
  - now eexists.
  - intros p _. reflexivity.
Qed.

Lemma revalidated_atRest w last data events :
  isObject (safeSettings w) ->
  atRest P {| currentSettingsWrapper := revalidated P w;
            lastSavedSettingsWrapper := last;
            dataJson := data;
            trace := events |}.
Proof.
  intros Hobj. destruct (revalidated_spec P w Hobj) as (Hs & Ho & Hp).
  split; simpl; [assumption|].
  intros p Hin. destruct (Hp p Hin) as (Hm & Hsafe).
  now rewrite Hm, Hsafe, Hs.
Qed.

Lemma loaded_atRest parsed last data events :
  atRest P {| currentSettingsWrapper := loadedWrapper P parsed;
            lastSavedSettingsWrapper := last;
            dataJson := data;
            trace := events |}.
Proof.
  destruct (loadedWrapper_spec P parsed) as (Ho & _ & Hp & _).
  split; simpl; [assumption|].
  intros p Hin. destruct (Hp p Hin) as (Hs & Hm & Hsafe).
  now rewrite Hm, Hsafe, Hs.
Qed.

(** Which of the three cases of [loadFromFile] a record falls in. *)
Lemma load_cases (data : value) :
  (data = VUndefined \/ data = VNull)
  \/ (data <> VUndefined /\ typeOf data <> "object")
  \/ structured data.
Proof.
  unfold structured.
  destruct data; simpl;
    solve [ left; auto
          | right; left; split; discriminate
          | right; right; repeat split; discriminate ].
Qed.

Lemma loadFromFile_atRest isInitialLoad st :
  atRest P (exec (loadFromFile P isInitialLoad) st).
Proof.
  unfold exec.
  destruct (load_cases (dataJson st)) as [Ha | [[Hu Ht] | Hs]].
  - rewrite (loadFromFile_absent P isInitialLoad st Ha). simpl.
    now apply default_atRest.
  - rewrite (loadFromFile_malformed P isInitialLoad st Hu Ht). simpl.
    now apply default_atRest.
  - rewrite (loadFromFile_structured P isInitialLoad st Hs). simpl.
    apply loaded_atRest.
Qed.

Lemma edit_atRest settingsEditor st :
  atRest P st -> atRest P (exec (edit P settingsEditor) st).
Proof.
  intros [Hobj _]. unfold exec. rewrite edit_run. simpl.
  unfold editedState, withCurrent. now apply revalidated_atRest.
Qed.

Lemma saveToFile_current context st :
  currentSettingsWrapper (exec (saveToFile P context) st)
  = currentSettingsWrapper st.
Proof.
  unfold exec.
  destruct (deepEqual (settings (lastSavedSettingsWrapper st))
              (settings (currentSettingsWrapper st))) eqn:E.
  - now rewrite saveToFile_clean.
  - now rewrite saveToFile_dirty.
Qed.

Lemma saveToFile_atRest context st :
  atRest P st -> atRest P (exec (saveToFile P context) st).
Proof.
  unfold atRest. now rewrite saveToFile_current.
Qed.

Lemma reachable_atRest st : reachable P st -> atRest P st.
Proof.
  induction 1 as [data events | st b _ _ | st ed _ IH | st k v _ IH
                 | st ctx _ IH | st ed ctx _ IH | st data _ IH].
  - now apply default_atRest.
  - apply loadFromFile_atRest.
  - now apply edit_atRest.
  - unfold exec. rewrite setProperty_run. simpl.
    destruct IH as [Hobj _].
    unfold editedState, withCurrent. now apply revalidated_atRest.
  - now apply saveToFile_atRest.
  - unfold exec. rewrite editAndSave_run.
    pose proof (edit_atRest ed IH) as He.
    unfold exec in He. rewrite edit_run in He. simpl in He.
    destruct (snd (ed _)); [exact He|].
    now apply saveToFile_atRest.
  - exact IH.
Qed.

End Snapshot.

End Snapshot.

(* ================================================================== *)
(** * Validation *)
(* ================================================================== *)

Module Validation.
Import JS Transformers Manager Spec ObjectFacts Runs Loops Snapshot.

Section Validation.
Variable P : Plugin.

Lemma validate_fold p settings l : forall result,
  ~ In p (keys l) ->
  lookup
    (fold_left
       (fun result (kv : string * Validator) =>
          match snd kv (getProp settings (fst kv)) settings with
          | Some validationMessage =>
              if truthy validationMessage
              then assign result (fst kv) validationMessage
              else result
          | None => result
          end) l result) p
  = lookup result p.
Proof.
  induction l as [|[k f] l IH]; intros result Hp; simpl; [reflexivity|].
  simpl in Hp. rewrite IH by tauto.
  destruct (f (getProp settings k) settings) as [m|]; [|reflexivity].
  destruct (truthy m); [|reflexivity].
  apply lookup_assign_other. tauto.
Qed.

(** [validate] reports nothing for a property without a validator. *)
Lemma validate_unregistered p settings :
  lookup (validators P) p = None ->
  lookup (validate P settings) p = None.
Proof.
  intros H. unfold validate.
  rewrite validate_fold; [reflexivity | now apply lookup_none_keys].
Qed.

(** [ensureSafe] leaves a property alone that [validate] reports
    nothing for. *)
Lemma ensureSafe_keeps p settings :
  lookup (validate P settings) p = None ->
  getProp (ensureSafe P settings) p = getProp settings p.
Proof.
  intros Hp. unfold ensureSafe.
  enough (H : forall l s,
    getProp
      (fold_left
         (fun s propertyName =>
            match lookup (validate P settings) propertyName with
            | Some m =>
                if truthy m
                then setProp s propertyName
                       (getProp (defaultSettings P) propertyName)
                else s
            | None => s
            end) l s) p = getProp s p) by apply H.
  induction l as [|q l IH]; intros s; simpl; [reflexivity|].
  rewrite IH.
  destruct (lookup (validate P settings) q) as [m|] eqn:Eq; [|reflexivity].
  destruct (truthy m); [|reflexivity].
  apply getProp_setProp_other. intros ->. congruence.
Qed.

(** The message of a property without a validator after each method. *)
Lemma edit_unvalidated_message p settingsEditor st :
  In p (propertyNames P) ->
  lookup (validators P) p = None ->
  lookup (validationMessages
            (currentSettingsWrapper (exec (edit P settingsEditor) st))) p
  = Some "".
Proof.
  intros Hp Hv. unfold exec. rewrite edit_run. simpl.
  rewrite revalidated_messages by assumption. simpl.
  now rewrite validate_unregistered.
Qed.

Lemma load_structured_message p isInitialLoad st :
  In p (propertyNames P) ->
  lookup (validators P) p = None ->
  structured (dataJson st) ->
  lookup (validationMessages
            (currentSettingsWrapper (exec (loadFromFile P isInitialLoad) st)))
    p
  = Some "".
Proof.
  intros Hp Hv Hs. unfold exec.
  rewrite (loadFromFile_structured P isInitialLoad st Hs). simpl.
  destruct (loadedWrapper_spec P
              (parsedSettings P (entries (onLoadRecord P (dataJson st)))
                 (VObj (createDefaultSettings P))))
    as (_ & _ & Hprop & _).
  destruct (Hprop p Hp) as (_ & Hm & _). rewrite Hm.
  now rewrite validate_unregistered.
Qed.

Lemma load_unstructured_message p isInitialLoad st :
  ~ structured (dataJson st) ->
  lookup (validationMessages
            (currentSettingsWrapper (exec (loadFromFile P isInitialLoad) st)))
    p
  = None.
Proof.
  intros Hs. unfold exec.
  destruct (load_cases (dataJson st)) as [Ha | [[Hu Ht] | H]].
  - now rewrite (loadFromFile_absent P isInitialLoad st Ha).
  - now rewrite (loadFromFile_malformed P isInitialLoad st Hu Ht).
  - contradiction.
Qed.

Lemma saveToFile_message p context st :
  lookup (validationMessages
            (currentSettingsWrapper (exec (saveToFile P context) st))) p
  = lookup (validationMessages (currentSettingsWrapper st)) p.
Proof. now rewrite saveToFile_current. Qed.

(** At rest the message of such a property is absent or empty. *)
Lemma reachable_unvalidated_message p st :
  In p (propertyNames P) ->
  lookup (validators P) p = None ->
  reachable P st ->
  lookup (validationMessages (currentSettingsWrapper st)) p = None
  \/ lookup (validationMessages (currentSettingsWrapper st)) p = Some "".
Proof.
  intros Hp Hv.
  induction 1 as [data events | st b _ _ | st ed _ _ | st k v _ _
                 | st ctx _ IH | st ed ctx _ _ | st data _ IH].
  - now left.
  - destruct (load_cases (dataJson st)) as [Ha | [[Hu Ht] | Hs]].
    + left. apply load_unstructured_message.
      intros (H1 & H2 & _). destruct Ha; contradiction.
    + left. apply load_unstructured_message.
      intros (_ & _ & H3). contradiction.
    + right. now apply load_structured_message.
  - right. now apply edit_unvalidated_message.
  - right. unfold exec. rewrite setProperty_run. simpl.
    rewrite revalidated_messages by assumption. simpl.
    now rewrite validate_unregistered.
  - now rewrite saveToFile_message.
  - right. unfold exec. rewrite editAndSave_run.
    pose proof (edit_unvalidated_message p ed st Hp Hv) as He.
    unfold exec in He. rewrite edit_run in He. simpl in He.
    destruct (snd (ed _)); [exact He|].
    fold (exec (saveToFile P ctx) (editedState P ed st)).
    now rewrite saveToFile_message.
  - exact IH.
Qed.

End Validation.

End Validation.

(* ================================================================== *)
(** * What is written, and when *)
(* ================================================================== *)

Module Saving.
Import JS Transformers Manager Spec ObjectFacts Runs Loops Snapshot.

Section Saving.
Variable P : Plugin.

Lemma writes_parseWarnings l : writes (parseWarnings P l) = [].
Proof.
  unfold parseWarnings. induction l as [|entry l IH]; [reflexivity|].
  simpl. rewrite writes_app, IH, app_nil_r. unfold parseWarning.
  destruct (negb (isValidPropertyName P (fst entry))); [reflexivity|].
  now destruct (negb (String.eqb _ _)).
Qed.

Lemma writes_cloneWarnings : writes (cloneWarnings P) = [].
Proof. apply writes_parseWarnings. Qed.

(** A wrapper has no property of an ordinary settings name. *)
Lemma wrapperObject_other w p :
  p <> "safeSettings" -> p <> "settings" -> p <> "validationMessages" ->
  getProp (wrapperObject w) p = VUndefined.
Proof.
  intros H1 H2 H3. unfold wrapperObject, getProp. cbn [lookup].
  rewrite !(proj2 (String.eqb_neq _ _)) by congruence.
  reflexivity.
Qed.

(** A [saveToFile] that finds the settings changed hands [saveData] one
    record, made from the wrapper. *)
Lemma saveToFile_dirty_writes context st :
  deepEqual (settings (lastSavedSettingsWrapper st))
    (settings (currentSettingsWrapper st)) = false ->
  writes (trace (exec (saveToFile P context) st))
  = writes (trace st)
    ++ [settingsToRawRecord P (wrapperObject (currentSettingsWrapper st))].
Proof.
  intros H. unfold exec. rewrite saveToFile_dirty by assumption.
  unfold savedState. cbn [snd trace].
  rewrite !writes_app, writes_cloneWarnings. reflexivity.
Qed.

(** A [saveToFile] that finds the settings unchanged does nothing. *)
Lemma saveToFile_clean_noop context st :
  deepEqual (settings (lastSavedSettingsWrapper st))
    (settings (currentSettingsWrapper st)) = true ->
  exec (saveToFile P context) st = st.
Proof. intros H. unfold exec. now rewrite saveToFile_clean. Qed.

(** After a [saveToFile] that wrote, the last-saved settings are a
    promise; with at least one property in the current settings the next
    [saveToFile] writes again. *)
Lemma saveToFile_twice_writes context context' st kv fs :
  settings (currentSettingsWrapper st) = VObj (kv :: fs) ->
  deepEqual (settings (lastSavedSettingsWrapper st))
    (settings (currentSettingsWrapper st)) = false ->
  writes (trace (exec (saveToFile P context')
                   (exec (saveToFile P context) st)))
  = writes (trace st)
    ++ [settingsToRawRecord P (wrapperObject (currentSettingsWrapper st));
        settingsToRawRecord P (wrapperObject (currentSettingsWrapper st))].
Proof.
  intros Hobj Hdirty.
  rewrite saveToFile_dirty_writes.
  - rewrite saveToFile_dirty_writes by assumption.
    rewrite saveToFile_current, <- app_assoc. reflexivity.
  - unfold exec. rewrite saveToFile_dirty by assumption.
    unfold savedState, clonedWrapper, cloneResult.
    cbn [snd currentSettingsWrapper lastSavedSettingsWrapper settings].
    now rewrite Hobj.
Qed.

(** [loadFromFile] of a structured record writes back at most once, and
    exactly once when the re-serialized settings differ from the record. *)
Lemma loadFromFile_writes isInitialLoad st :
  structured (dataJson st) ->
  let st' := exec (loadFromFile P isInitialLoad) st in
  writes (trace st')
  = writes (trace st)
    ++ if negb (deepEqual
                  (settingsToRawRecord P
                     (settings (currentSettingsWrapper st')))
                  (onLoadRecord P (dataJson st)))
       then [settingsToRawRecord P
               (wrapperObject (currentSettingsWrapper st'))]
       else [].
Proof.
  intros Hs st'. subst st'. unfold exec.
  rewrite (loadFromFile_structured P isInitialLoad st Hs).
  unfold loadedState.
  cbn [snd trace currentSettingsWrapper].
  rewrite !writes_app, writes_parseWarnings, writes_cloneWarnings.
  destruct (negb (deepEqual _ _)); reflexivity.
Qed.

(** After a structured load the last-saved wrapper holds, for its two
    settings views, what [cloneSettings] returned. *)
Lemma loadFromFile_lastSaved isInitialLoad st :
  structured (dataJson st) ->
  let st' := exec (loadFromFile P isInitialLoad) st in
  lastSavedSettingsWrapper st' = clonedWrapper P (currentSettingsWrapper st').
Proof.
  intros Hs st'. subst st'. unfold exec.
  now rewrite (loadFromFile_structured P isInitialLoad st Hs).
Qed.

End Saving.

End Saving.

(* ================================================================== *)
(** * The specification's claims about the snapshot *)
(* ================================================================== *)

Module Claims.
Import JS Transformers Manager Spec More ObjectFacts Runs Loops Snapshot
  Validation RoundTrip.

(** X19.  The safe-value rule of the current snapshot.  In the current
    snapshot of every state at
    rest (after construction and after any sequence of [loadFromFile],
    [edit], [setProperty], [saveToFile] and [editAndSave]), for every
    property [p] of the fixed property-name list, [safeSettings[p]] is
    [defaultSettings[p]] when [validationMessages[p]] is a non-empty
    message and [settings[p]] otherwise; so it is always one of the two
    and never a third value. *)
Theorem safe_value_invariant (P : Plugin) (st : State) :
  reachable P st ->
  forall p, In p (propertyNames P) ->
    let w := currentSettingsWrapper st in
    getProp (safeSettings w) p
    = (if truthy (orEmpty (lookup (validationMessages w) p))
       then getProp (defaultSettings P) p
       else getProp (settings w) p)
    /\ (getProp (safeSettings w) p = getProp (defaultSettings P) p
        \/ getProp (safeSettings w) p = getProp (settings w) p).
Proof.
  intros Hr p Hp w. subst w.
  destruct (reachable_atRest Hr) as [_ Hrule].
  specialize (Hrule p Hp). split; [exact Hrule|].
  rewrite Hrule. destruct (truthy _); auto.
Qed.

Lemma safe_value_invariant_witness :
  let st := exec (edit retriesPlugin (setRetries (-1)))
              (exec (loadFromFile retriesPlugin true)
                 (construct retriesPlugin (VObj [("name", VStr "y")]) [])) in
  reachable retriesPlugin st
  /\ getProp (safeSettings (currentSettingsWrapper st)) "retries" = VNum 3
  /\ getProp (settings (currentSettingsWrapper st)) "retries" = VNum (-1)
  /\ getProp (safeSettings (currentSettingsWrapper st)) "name" = VStr "y".
Proof.
  intros st.
  assert (Hr : reachable retriesPlugin st)
    by (apply reach_edit, reach_loadFromFile, reach_construct).
  split; [exact Hr|].
  pose proof (safe_value_invariant Hr "retries") as H1.
  pose proof (safe_value_invariant Hr "name") as H2.
  split; [|split].
  - destruct H1 as [H1 _]; [simpl; auto|]. rewrite H1. reflexivity.
  - reflexivity.
  - destruct H2 as [H2 _]; [simpl; auto|]. rewrite H2. reflexivity.
Defined.

(** C1, on the code.  The safe-value invariant holds of the current
    snapshot but not of the last-saved one.  Defaults
    [{retries: 3, name: "x"}] with a validator that rejects negative
    [retries], and the stored record [{retries: -1, name: "x"}]: after
    [loadFromFile] the last-saved snapshot has a non-empty message for
    [retries], but its safe settings are the promise that the un-awaited
    [cloneSettings] returned, so its [safeSettings.retries] is undefined
    and not the default 3.  The next [saveToFile] hands this very
    snapshot to [plugin.onSaveSettings] as the previous one. *)
Theorem last_saved_snapshot_breaks_rule :
  let st := exec (loadFromFile retriesPlugin true)
              (construct retriesPlugin
                 (VObj [("retries", VNum (-1)); ("name", VStr "x")]) []) in
  let current := currentSettingsWrapper st in
  let lastSaved := lastSavedSettingsWrapper st in
  reachable retriesPlugin st
  /\ In "retries" (propertyNames retriesPlugin)
  /\ safeValueRule retriesPlugin current
  /\ getProp (safeSettings current) "retries" = VNum 3
  /\ lookup (validationMessages lastSaved) "retries"
     = Some "retries must not be negative"
  /\ safeSettings lastSaved
     = VPromise (VObj [("retries", VNum 3); ("name", VStr "x")])
  /\ getProp (safeSettings lastSaved) "retries" = VUndefined
  /\ getProp (defaultSettings retriesPlugin) "retries" = VNum 3
  /\ ~ safeValueRule retriesPlugin lastSaved
  /\ writes (trace st) = []
  /\ saveNotifications (trace (exec (saveToFile retriesPlugin VUndefined) st))
     = [(current, lastSaved, VUndefined)].
Proof.
  intros st current lastSaved.
  assert (Hr : reachable retriesPlugin st)
    by apply reach_loadFromFile, reach_construct.
  assert (Hp : In "retries" (propertyNames retriesPlugin))
    by (simpl; auto).
  split; [exact Hr|]. split; [exact Hp|].
  split; [exact (proj2 (reachable_atRest Hr))|].
  repeat apply conj; try reflexivity.
  intros Hrule. specialize (Hrule "retries" Hp). discriminate Hrule.
Qed.

(** C6.  Edit exception safety.  Whatever the editor does, and also when
    it throws after mutating the settings: the mutation stays, the pass
    over all property names has run when [edit] returns (every name has
    the message that [validate] gives for the mutated settings, or the
    empty one, and the safe value the snapshot-update rule gives), and
    [edit] throws exactly what the editor threw.  [setProperty] is [edit]
    with an assigning editor, and [editAndSave] throws the same value and
    stops after [edit]. *)
Theorem edit_exception_safety (P : Plugin) (st : State)
    (settingsEditor : Editor) :
  reachable P st ->
  let outcome := settingsEditor (settings (currentSettingsWrapper st)) in
  let st' := exec (edit P settingsEditor) st in
  let w' := currentSettingsWrapper st' in
  result (edit P settingsEditor) st
  = match snd outcome with
    | Some e => Throw e
    | None => Normal tt
    end
  /\ settings w' = fst outcome
  /\ (forall p, In p (propertyNames P) ->
        lookup (validationMessages w') p
        = Some (orEmpty (lookup (validate P (fst outcome)) p))
        /\ getProp (safeSettings w') p
           = if truthy (orEmpty (lookup (validate P (fst outcome)) p))
             then getProp (defaultSettings P) p
             else getProp (fst outcome) p)
  /\ (forall e context,
        snd outcome = Some e ->
        editAndSave P settingsEditor context st = (Throw e, st'))
  /\ (forall propertyName value,
        exec (setProperty P propertyName value) st
        = exec (edit P (fun settings =>
                          (setProp settings propertyName value, None))) st).
Proof.
  intros Hr outcome st' w'.
  destruct (reachable_atRest Hr) as [Hobj _].
  subst w' st'. unfold exec, result. rewrite edit_run. simpl.
  set (w := {| safeSettings := safeSettings (currentSettingsWrapper st);
               settings := fst outcome;
               validationMessages :=
                 validationMessages (currentSettingsWrapper st) |}).
  destruct (revalidated_spec P w Hobj) as (Hs & _ & Hp).
  fold outcome. fold w.
  split; [|split; [|split; [|split]]].
  - now destruct (snd outcome).
  - exact Hs.
  - exact Hp.
  - intros e context He. rewrite editAndSave_run. fold outcome.
    now rewrite He.
  - intros propertyName value. rewrite setProperty_run, edit_run.
    reflexivity.
Qed.

Lemma edit_exception_safety_witness :
  let st := construct retriesPlugin VNull [] in
  let st' := exec (edit retriesPlugin (setRetriesAndThrow (-1))) st in
  reachable retriesPlugin st
  /\ result (edit retriesPlugin (setRetriesAndThrow (-1))) st
     = Throw (VStr "boom")
  /\ lookup (validationMessages (currentSettingsWrapper st')) "retries"
     = Some "retries must not be negative"
  /\ getProp (safeSettings (currentSettingsWrapper st')) "retries" = VNum 3.
Proof.
  intros st st'.
  assert (Hr : reachable retriesPlugin st) by apply reach_construct.
  split; [exact Hr|].
  destruct (edit_exception_safety (setRetriesAndThrow (-1)) Hr)
    as (Hres & _ & Hp & _).
  destruct (Hp "retries") as (Hm & Hsafe); [simpl; auto|].
  unfold st'. split; [exact Hres|]. split.
  - rewrite Hm. reflexivity.
  - rewrite Hsafe. reflexivity.
Defined.

(** C7.  A record that is absent ([undefined] or [null]) or present but
    not an object: [loadFromFile] returns without throwing, both
    snapshots are the freshly constructed default one, nothing is handed
    to [saveData] and the host's record is untouched; the absent case
    prints nothing and the malformed case prints one error. *)
Theorem load_without_record (P : Plugin) (isInitialLoad : bool)
    (st : State) :
  dataJson st = VUndefined \/ dataJson st = VNull
  \/ typeOf (dataJson st) <> "object" ->
  let st' := exec (loadFromFile P isInitialLoad) st in
  result (loadFromFile P isInitialLoad) st = Normal tt
  /\ currentSettingsWrapper st' = createDefaultSettingsWrapper P
  /\ lastSavedSettingsWrapper st' = createDefaultSettingsWrapper P
  /\ writes (trace st') = writes (trace st)
  /\ dataJson st' = dataJson st
  /\ trace st'
     = trace st
       ++ match dataJson st with
          | VUndefined | VNull => []
          | data =>
              [ConsoleError
                 ("Invalid settings from data.json. Expected Object, got: "
                  ++ typeOf data)]
          end.
Proof.
  intros H st'. subst st'. unfold exec, result.
  assert (Hcase : (dataJson st = VUndefined \/ dataJson st = VNull)
                  \/ (dataJson st <> VUndefined
                      /\ typeOf (dataJson st) <> "object")).
  { destruct H as [H | [H | H]]; auto.
    destruct (dataJson st); simpl in *; auto; right; split;
      solve [discriminate | assumption]. }
  destruct Hcase as [Ha | [Hu Ht]].
  - rewrite (loadFromFile_absent P isInitialLoad st Ha). simpl.
    repeat split.
    destruct Ha as [-> | ->]; now rewrite app_nil_r.
  - rewrite (loadFromFile_malformed P isInitialLoad st Hu Ht). simpl.
    repeat split.
    + rewrite writes_app. simpl. now rewrite app_nil_r.
    + destruct (dataJson st); simpl in *; congruence.
Qed.

Lemma load_without_record_witness :
  let st := construct counterPlugin (VStr "not a record") [] in
  let st' := exec (loadFromFile counterPlugin true) st in
  typeOf (dataJson st) <> "object"
  /\ result (loadFromFile counterPlugin true) st = Normal tt
  /\ currentSettingsWrapper st' = createDefaultSettingsWrapper counterPlugin
  /\ writes (trace st') = [].
Proof.
  intros st st'.
  assert (H : typeOf (dataJson st) <> "object") by (simpl; discriminate).
  split; [exact H|].
  destruct (load_without_record counterPlugin true st
              (or_intror (or_intror H))) as (Hres & Hcur & _ & Hw & _).
  auto.
Defined.

(** C8.  Unknown-property tolerance.  When [loadFromFile] parses a
    structured record, every property of the record (as the load-record
    hook left it) whose name is not in the fixed property-name list gets
    the warning [Unknown property: name] and is in none of the three
    views of the resulting snapshot; the property names of each of the
    three views are exactly the fixed property-name list. *)
Theorem unknown_property_tolerance (P : Plugin) (isInitialLoad : bool)
    (st : State) :
  structured (dataJson st) ->
  let st' := exec (loadFromFile P isInitialLoad) st in
  let w' := currentSettingsWrapper st' in
  result (loadFromFile P isInitialLoad) st = Normal tt
  /\ (forall k, In k (getAllKeys (settings w')) <-> In k (propertyNames P))
  /\ (forall k, In k (getAllKeys (safeSettings w')) <-> In k (propertyNames P))
  /\ (forall k, In k (keys (validationMessages w')) <-> In k (propertyNames P))
  /\ (forall k,
        In k (keys (entries (onLoadRecord P (dataJson st)))) ->
        ~ In k (propertyNames P) ->
        In (ConsoleWarn ("Unknown property: " ++ k) []) (trace st')
        /\ ~ In k (getAllKeys (settings w'))
        /\ ~ In k (getAllKeys (safeSettings w'))
        /\ ~ In k (keys (validationMessages w'))).
Proof.
  intros Hs st' w'. subst w' st'. unfold exec, result.
  rewrite (loadFromFile_structured P isInitialLoad st Hs). simpl.
  destruct (loadedWrapper_spec P
              (parsedSettings P (entries (onLoadRecord P (dataJson st)))
                 (VObj (createDefaultSettings P))))
    as (_ & _ & _ & Hk1 & Hk2 & Hk3).
  split; [reflexivity|].
  split; [exact Hk1|]. split; [exact Hk2|]. split; [exact Hk3|].
  intros k Hin Hout. rewrite Hk1, Hk2, Hk3.
  split; [|tauto].
  apply in_or_app. right. apply in_or_app. left.
  unfold keys in Hin. apply in_map_iff in Hin.
  destruct Hin as ([k' x] & Hk & Hin). simpl in Hk. subst k'.
  unfold parseWarnings. apply in_flat_map.
  exists (k, x). split; [assumption|].
  unfold parseWarning. simpl.
  destruct (isValidPropertyName P k) eqn:E.
  - apply existsb_eqb_in in E. contradiction.
  - simpl. now left.
Qed.

Lemma unknown_property_tolerance_witness :
  let st :=
    construct retriesPlugin
      (VObj [("retries", VNum 5); ("doesNotExist", VNum 1)]) [] in
  let st' := exec (loadFromFile retriesPlugin true) st in
  structured (dataJson st)
  /\ In (ConsoleWarn "Unknown property: doesNotExist" []) (trace st')
  /\ ~ In "doesNotExist" (getAllKeys (settings (currentSettingsWrapper st'))).
Proof.
  intros st st'.
  assert (Hs : structured (dataJson st))
    by (repeat split; discriminate).
  split; [exact Hs|].
  destruct (unknown_property_tolerance retriesPlugin true st Hs)
    as (_ & _ & _ & _ & Hk).
  destruct (Hk "doesNotExist") as (Hw & Hn & _).
  - simpl. auto.
  - simpl. intros [H | [H | []]]; discriminate.
  - split; assumption.
Defined.

(** C10, as the code has it.  For a property [p] of the fixed
    property-name list without a registered validator: [validate] never
    reports a message for [p]; [validationMessages[p]] is never a
    non-empty message, namely it is absent ([undefined]) after the
    constructor and after a [loadFromFile] that found no structured
    record, and the empty string after a [loadFromFile] of a structured
    record, an [edit] or a [setProperty]; at rest [safeSettings[p]]
    equals [settings[p]]; and [ensureSafe] leaves [p] as it is. *)
Theorem unvalidated_property (P : Plugin) (p : string) :
  In p (propertyNames P) ->
  lookup (validators P) p = None ->
  (forall settings, lookup (validate P settings) p = None)
  /\ (forall st, reachable P st ->
        let w := currentSettingsWrapper st in
        (lookup (validationMessages w) p = None
         \/ lookup (validationMessages w) p = Some "")
        /\ getProp (safeSettings w) p = getProp (settings w) p)
  /\ (forall data events,
        lookup (validationMessages
                  (currentSettingsWrapper (construct P data events))) p
        = None)
  /\ (forall st isInitialLoad,
        let w' :=
          currentSettingsWrapper (exec (loadFromFile P isInitialLoad) st) in
        (~ structured (dataJson st) -> lookup (validationMessages w') p = None)
        /\ (structured (dataJson st) ->
            lookup (validationMessages w') p = Some ""))
  /\ (forall st settingsEditor,
        lookup (validationMessages
                  (currentSettingsWrapper (exec (edit P settingsEditor) st))) p
        = Some "")
  /\ (forall st propertyName value,
        lookup (validationMessages
                  (currentSettingsWrapper
                     (exec (setProperty P propertyName value) st))) p
        = Some "")
  /\ (forall settings,
        getProp (ensureSafe P settings) p = getProp settings p).
Proof.
  intros Hp Hv.
  split; [|split; [|split; [|split; [|split; [|split]]]]].
  - intros settings. now apply validate_unregistered.
  - intros st Hr w. subst w.
    pose proof (@reachable_unvalidated_message P p st Hp Hv Hr) as Hm.
    split; [exact Hm|].
    destruct (reachable_atRest Hr) as [_ Hrule].
    rewrite (Hrule p Hp). destruct Hm as [-> | ->]; reflexivity.
  - reflexivity.
  - intros st isInitialLoad w'. subst w'. split.
    + now apply load_unstructured_message.
    + now apply load_structured_message.
  - intros st settingsEditor. now apply edit_unvalidated_message.
  - intros st propertyName value. unfold exec. rewrite setProperty_run. simpl.
    rewrite revalidated_messages by assumption. simpl.
    now rewrite validate_unregistered.
  - intros settings. apply ensureSafe_keeps. now apply validate_unregistered.
Qed.

Lemma unvalidated_property_witness :
  In "name" (propertyNames retriesPlugin)
  /\ lookup (validators retriesPlugin) "name" = None
  /\ getProp (ensureSafe retriesPlugin
                (VObj [("retries", VNum (-1)); ("name", VStr "z")])) "name"
     = VStr "z".
Proof.
  assert (Hp : In "name" (propertyNames retriesPlugin)) by (simpl; auto).
  assert (Hv : lookup (validators retriesPlugin) "name" = None)
    by reflexivity.
  split; [exact Hp|]. split; [exact Hv|].
  destruct (unvalidated_property retriesPlugin "name" Hp Hv)
    as (_ & _ & _ & _ & _ & _ & Hsafe).
  rewrite Hsafe. reflexivity.
Defined.

(** C10 as stated fails: right after the constructor, the message of a
    property without a validator is not the empty string but absent. *)
Lemma unvalidated_message_absent_after_construction :
  In "a" (propertyNames counterPlugin)
  /\ lookup (validators counterPlugin) "a" = None
  /\ lookup (validationMessages
               (currentSettingsWrapper (construct counterPlugin VNull [])))
       "a"
     <> Some "".
Proof.
  split; [simpl; auto|]. split; [reflexivity|]. simpl. discriminate.
Qed.

(** C9.  Transformer chain round trip.  For settings [s] of supported
    shapes (with distinct property names in every object), the default
    chain's forward transformation followed by its backward
    transformation gives [s] without its private properties, which is in
    particular deep-equal to it; and a chain applies its first member
    first when going forward and last when going backward. *)
Theorem chain_round_trip (isPrivate : string -> bool) (s : value) :
  wellFormed s = true ->
  supported s = true ->
  let T := defaultChain isPrivate in
  transformBackward T (transformForward T s) = stripPrivate isPrivate s
  /\ deepEqual (transformBackward T (transformForward T s))
       (stripPrivate isPrivate s) = true
  /\ (forall t ts v,
        transformValue (GroupTransformer (t :: ts)) v
        = transformValue (GroupTransformer ts) (transformValue t v)
        /\ restoreValue (GroupTransformer (t :: ts)) v
           = restoreValue t (restoreValue (GroupTransformer ts) v)).
Proof.
  intros Hwf Hs T. subst T.
  rewrite (roundTrip_equal isPrivate s Hs).
  split; [reflexivity|]. split.
  - apply deepEqual_refl. now apply stripPrivate_wellFormed.
  - intros t ts v. split.
    + apply group_forward_order.
    + apply group_backward_order.
Qed.

Lemma chain_round_trip_witness :
  wellFormed sampleSettings = true
  /\ supported sampleSettings = true
  /\ transformBackward defaultTransformer
       (transformForward defaultTransformer sampleSettings)
     = VObj [
         ("since", VDate newYear);
         ("timeouts", VArr [VDuration "PT1S"; VNull]);
         ("nested", VObj [("label", VStr "l")])
       ].
Proof.
  assert (Hwf : wellFormed sampleSettings = true) by reflexivity.
  assert (Hs : supported sampleSettings = true) by reflexivity.
  split; [exact Hwf|]. split; [exact Hs|].
  destruct (chain_round_trip isPrivateName sampleSettings Hwf Hs) as (H & _).
  unfold defaultTransformer. rewrite H. reflexivity.
Defined.

(** C2, on the code.  One setting [a], edited from 0 to 1, then
    [saveToFile] twice with no edit in between: both calls hand a record
    to [saveData].  After the first call the last-saved settings are the
    promise that the un-awaited [cloneSettings] returned, which is not
    deep-equal to the current settings. *)
Theorem repeated_save_writes_twice :
  let st0 := exec (edit counterPlugin (setA 1))
               (construct counterPlugin VNull []) in
  let st1 := exec (saveToFile counterPlugin VUndefined) st0 in
  let st2 := exec (saveToFile counterPlugin VUndefined) st1 in
  List.length (writes (trace st1)) = 1
  /\ currentSettingsWrapper st1 = currentSettingsWrapper st0
  /\ settings (currentSettingsWrapper st1) = VObj [("a", VNum 1)]
  /\ settings (lastSavedSettingsWrapper st1) = VPromise (VObj [("a", VNum 0)])
  /\ List.length (writes (trace st2)) = 2.
Proof. repeat apply conj; intros; reflexivity. Qed.

(** C3, on the code.  One setting [a] with the value 1: the record that
    [saveToFile] hands to [saveData] has [a] undefined, because
    [saveToFileImpl] reads the properties off the wrapper; the forward
    transformation of the current settings' properties has [a] at 1. *)
Theorem save_writes_wrapper_properties :
  let st0 := exec (edit counterPlugin (setA 1))
               (construct counterPlugin VNull []) in
  let st1 := exec (saveToFile counterPlugin VUndefined) st0 in
  settings (currentSettingsWrapper st0) = VObj [("a", VNum 1)]
  /\ writes (trace st1) = [VObj [("a", VUndefined)]]
  /\ settingsToRawRecord counterPlugin (settings (currentSettingsWrapper st0))
     = VObj [("a", VNum 1)]
  /\ dataJson st1 = VObj [].
Proof. repeat apply conj; intros; reflexivity. Qed.

(** C4, on the code.  The record that the save path makes of settings
    with a date, loaded again: the parsed settings hold the serialized
    representation as it is in the record, not the date that the backward
    transformation gives for it.  [rawRecordToSettings] is the same
    computation whatever transformer the plugin has. *)
Theorem load_keeps_raw_value :
  let st := construct datePlugin savedDateRecord [] in
  let st' := exec (loadFromFile datePlugin true) st in
  settingsToRawRecord datePlugin (VObj [("d", VDate newYear)])
  = savedDateRecord
  /\ result (rawRecordToSettings datePlugin savedDateRecord) st
     = Normal (savedDateRecord, savedDateRecord)
  /\ getProp (settings (currentSettingsWrapper st')) "d"
     = getProp savedDateRecord "d"
  /\ transformBackward (getTransformer datePlugin) (getProp savedDateRecord "d")
     = VDate newYear
  /\ (forall (P : Plugin) (T : Transformer) rawRecord,
        rawRecordToSettings (withTransformer P T) rawRecord
        = rawRecordToSettings P rawRecord).
Proof. repeat apply conj; intros; reflexivity. Qed.

(** C5, on the code.  One setting [a] and a stored record without it:
    [loadFromFile] writes back once, but the record it writes has [a]
    undefined, so the host again holds a record without [a], and the next
    [loadFromFile] writes back again.  The re-serialized settings, which
    the write-back was to store, have [a] at its default.  Were the host
    to hand back the written record untouched, the next [loadFromFile]
    would set [a] to undefined. *)
Theorem write_back_repeats :
  let st0 := construct counterPlugin (VObj []) [] in
  let st1 := exec (loadFromFile counterPlugin true) st0 in
  let st2 := exec (loadFromFile counterPlugin false) st1 in
  let untouched :=
    exec (loadFromFile counterPlugin false)
      (hostHolds st1 (VObj [("a", VUndefined)])) in
  writes (trace st1) = [VObj [("a", VUndefined)]]
  /\ settingsToRawRecord counterPlugin (settings (currentSettingsWrapper st1))
     = VObj [("a", VNum 0)]
  /\ dataJson st1 = VObj []
  /\ writes (trace st2) = [VObj [("a", VUndefined)]; VObj [("a", VUndefined)]]
  /\ settings (currentSettingsWrapper untouched) = VObj [("a", VUndefined)].
Proof. repeat apply conj; intros; reflexivity. Qed.

End Claims.

(* ================================================================== *)
(** * Further properties of the manager *)
(* ================================================================== *)

Module MoreFacts.
Import JS Transformers Manager Spec More ObjectFacts Runs Loops Snapshot
  Validation Saving RoundTrip.

Lemma lookup_app (A : Type) (l1 l2 : list (string * A)) k :
  lookup (l1 ++ l2) k
  = match lookup l1 k with
    | Some x => Some x
    | None => lookup l2 k
    end.
Proof.
  induction l1 as [|[k0 x] l1 IH]; simpl; [reflexivity|].
  now destruct (String.eqb k0 k).
Qed.

(** A map built by [assign] has each name once. *)
Lemma assign_NoDup (A : Type) (m : list (string * A)) k x :
  NoDup (keys m) -> NoDup (keys (assign m k x)).
Proof.
  unfold keys. induction m as [|[k0 y] m IH]; simpl; intros Hnd.
  - constructor; [intros [] | constructor].
  - inversion Hnd as [|? ? Hfresh Hnd']; subst.
    destruct (String.eqb_spec k0 k) as [->|Hne]; simpl.
    + now constructor.
    + constructor; [|auto].
      intros Hin. apply Hfresh.
      change (In k0 (keys (assign m k x))) in Hin.
      apply keys_assign in Hin. destruct Hin as [-> | Hin]; [congruence|].
      exact Hin.
Qed.

Lemma fold_assign_NoDup (A : Type) (l : list (string * A)) : forall m,
  NoDup (keys m) ->
  NoDup (keys (fold_left (fun m kv => assign m (fst kv) (snd kv)) l m)).
Proof.
  induction l as [|kv l IH]; intros m Hnd; simpl; [assumption|].
  apply IH. now apply assign_NoDup.
Qed.

(** The last assignment to a name is the one that counts. *)
Lemma fold_assign_last (A : Type) (l : list (string * A)) k : forall m,
  lookup (fold_left (fun m kv => assign m (fst kv) (snd kv)) l m) k
  = match lookup (rev l) k with
    | Some x => Some x
    | None => lookup m k
    end.
Proof.
  induction l as [|[k0 x] l IH]; intros m; simpl; [reflexivity|].
  rewrite IH, lookup_app. destruct (lookup (rev l) k); [reflexivity|].
  simpl. destruct (String.eqb_spec k0 k) as [->|Hne].
  - apply lookup_assign_same.
  - now apply lookup_assign_other.
Qed.

Section MoreFacts.
Variable P : Plugin.

Lemma validators_NoDup : NoDup (keys (validators P)).
Proof. apply fold_assign_NoDup. constructor. Qed.

Lemma validate_fold_spec settings p l : forall result,
  NoDup (keys l) ->
  lookup
    (fold_left
       (fun result (kv : string * Validator) =>
          match snd kv (getProp settings (fst kv)) settings with
          | Some validationMessage =>
              if truthy validationMessage
              then assign result (fst kv) validationMessage
              else result
          | None => result
          end) l result) p
  = match lookup l p with
    | Some f =>
        match reported (Some f) settings p with
        | Some m => Some m
        | None => lookup result p
        end
    | None => lookup result p
    end.
Proof.
  induction l as [|[k f] l IH]; intros result Hnd; [reflexivity|].
  inversion Hnd as [|? ? Hfresh Hnd']; subst.
  simpl fold_left. simpl lookup.
  destruct (String.eqb_spec k p) as [->|Hne].
  - rewrite validate_fold by exact Hfresh. unfold reported.
    destruct (f (getProp settings p) settings) as [m|]; [|reflexivity].
    destruct (truthy m); [|reflexivity].
    apply lookup_assign_same.
  - rewrite IH by assumption.
    assert (Hsame :
      lookup
        match f (getProp settings k) settings with
        | Some validationMessage =>
            if truthy validationMessage
            then assign result k validationMessage
            else result
        | None => result
        end p = lookup result p).
    { destruct (f (getProp settings k) settings) as [m|]; [|reflexivity].
      destruct (truthy m); [|reflexivity].
      now apply lookup_assign_other. }
    simpl fst. simpl snd. rewrite Hsame. reflexivity.
Qed.

(** [ensureSafe] in closed form, property by property. *)
Lemma ensureSafe_fold (validationResult : list (string * string)) l :
  forall settings,
  isObject settings ->
  let settings' :=
    fold_left
      (fun settings propertyName =>
         match lookup validationResult propertyName with
         | Some m =>
             if truthy m
             then setProp settings propertyName
                    (getProp (defaultSettings P) propertyName)
             else settings
         | None => settings
         end) l settings in
  isObject settings'
  /\ (forall p, In p l ->
        getProp settings' p
        = if truthy (orEmpty (lookup validationResult p))
          then getProp (defaultSettings P) p
          else getProp settings p)
  /\ (forall p, ~ In p l -> getProp settings' p = getProp settings p).
Proof.
  induction l as [|q l IH]; intros settings Hobj; cbv zeta; cbn [fold_left].
  - repeat split; auto. intros p [].
  - match goal with
    | |- context [fold_left _ l ?x] => set (s1 := x)
    end.
    assert (Hobj1 : isObject s1).
    { unfold s1. destruct (lookup validationResult q) as [m|]; [|assumption].
      destruct (truthy m); [now apply isObject_setProp | assumption]. }
    assert (Hq : getProp s1 q
                 = if truthy (orEmpty (lookup validationResult q))
                   then getProp (defaultSettings P) q
                   else getProp settings q).
    { unfold s1. destruct (lookup validationResult q) as [m|]; [|reflexivity].
      simpl. destruct (truthy m); [|reflexivity].
      now apply getProp_setProp_same. }
    assert (Hother : forall p, p <> q -> getProp s1 p = getProp settings p).
    { intros p Hne. unfold s1.
      destruct (lookup validationResult q) as [m|]; [|reflexivity].
      destruct (truthy m); [|reflexivity].
      apply getProp_setProp_other. congruence. }
    destruct (IH s1 Hobj1) as (Ho & Hin & Hout).
    split; [exact Ho|]. split.
    + intros p Hp.
      assert (Hs1 : truthy (orEmpty (lookup validationResult p)) = false ->
                    getProp s1 p = getProp settings p).
      { intros E. destruct (string_dec p q) as [-> | Hne].
        - now rewrite Hq, E.
        - now apply Hother. }
      destruct (in_dec string_dec p l) as [Hl | Hl].
      * rewrite (Hin p Hl).
        destruct (truthy (orEmpty (lookup validationResult p))) eqn:E;
          [reflexivity | now apply Hs1].
      * rewrite (Hout p Hl). destruct Hp as [-> | Hp]; [exact Hq | contradiction].
    + intros p Hp. rewrite Hout by (intros H; apply Hp; now right).
      apply Hother. intros ->. apply Hp. now left.
Qed.

(** Assigning a property on a promise does not change the promise. *)
Lemma ensureSafe_promise settled :
  ensureSafe P (VPromise settled) = VPromise settled.
Proof.
  unfold ensureSafe.
  generalize (validate P (VPromise settled)) as validationResult.
  intros validationResult.
  induction (propertyNames P) as [|q l IH]; [reflexivity|].
  cbn [fold_left].
  destruct (lookup validationResult q) as [m|]; [|exact IH].
  destruct (truthy m); exact IH.
Qed.

(** The parsed settings, property by property, for a record whose
    property names are distinct. *)
Lemma parsedSettings_spec l : forall settings p,
  NoDup (keys l) ->
  isObject settings ->
  In p (propertyNames P) ->
  getProp (parsedSettings P l settings) p
  = match lookup l p with
    | Some x => x
    | None => getProp settings p
    end.
Proof.
  unfold parsedSettings.
  induction l as [|[k x] l IH]; intros settings p Hnd Hobj Hp;
    [reflexivity|].
  inversion Hnd as [|? ? Hfresh Hnd']; subst.
  cbn [fold_left lookup].
  assert (Hobj1 : isObject (parsedEntry P settings (k, x))).
  { unfold parsedEntry. simpl.
    destruct (isValidPropertyName P k);
      [now apply isObject_setProp | assumption]. }
  rewrite (IH _ p Hnd' Hobj1 Hp).
  destruct (String.eqb_spec k p) as [->|Hne].
  - replace (lookup l p) with (@None value)
      by (symmetry; now apply lookup_none_keys).
    unfold parsedEntry. simpl.
    replace (isValidPropertyName P p) with true
      by (symmetry; now apply existsb_eqb_in).
    now apply getProp_setProp_same.
  - destruct (lookup l p); [reflexivity|].
    unfold parsedEntry. simpl.
    destruct (isValidPropertyName P k); [|reflexivity].
    now apply getProp_setProp_other.
Qed.

Lemma loadNotifications_app a b :
  loadNotifications (a ++ b) = loadNotifications a ++ loadNotifications b.
Proof.
  induction a as [|e a IH]; simpl; [reflexivity|].
  destruct e; simpl; now rewrite IH.
Qed.

Lemma saveNotifications_app a b :
  saveNotifications (a ++ b) = saveNotifications a ++ saveNotifications b.
Proof.
  induction a as [|e a IH]; simpl; [reflexivity|].
  destruct e; simpl; now rewrite IH.
Qed.

Lemma consoleOutput_app a b :
  consoleOutput (a ++ b) = consoleOutput a ++ consoleOutput b.
Proof.
  induction a as [|e a IH]; simpl; [reflexivity|].
  destruct e; simpl; now rewrite IH.
Qed.

(** Parsing prints warnings and nothing else. *)
Lemma parseWarnings_only_warn l :
  loadNotifications (parseWarnings P l) = []
  /\ saveNotifications (parseWarnings P l) = []
  /\ consoleOutput (parseWarnings P l) = parseWarnings P l.
Proof.
  unfold parseWarnings. induction l as [|entry l (IH1 & IH2 & IH3)];
    [repeat split|].
  simpl. rewrite loadNotifications_app, saveNotifications_app,
    consoleOutput_app, IH1, IH2, IH3.
  unfold parseWarning.
  destruct (negb (isValidPropertyName P (fst entry))); [now repeat split|].
  destruct (negb (String.eqb _ _)); now repeat split.
Qed.

(** A record whose properties all are known and of the default's type
    parses without a warning. *)
Lemma parseWarnings_silent l :
  (forall k x, In (k, x) l ->
     In k (propertyNames P)
     /\ typeOf x = typeOf (getProp (defaultSettings P) k)) ->
  parseWarnings P l = [].
Proof.
  unfold parseWarnings. induction l as [|[k x] l IH]; intros H;
    [reflexivity|].
  simpl. rewrite IH by (intros k' x' Hin; apply H; now right).
  destruct (H k x) as [Hk Ht]; [now left|].
  unfold parseWarning. simpl.
  replace (isValidPropertyName P k) with true
    by (symmetry; now apply existsb_eqb_in).
  simpl. rewrite Ht, String.eqb_refl. reflexivity.
Qed.

(** Entries without a listed name leave the settings as they are. *)
Lemma parsedSettings_unknown l : forall settings,
  (forall k, In k (keys l) -> ~ In k (propertyNames P)) ->
  parsedSettings P l settings = settings.
Proof.
  unfold parsedSettings.
  induction l as [|[k x] l IH]; intros settings H; [reflexivity|].
  cbn [fold_left]. unfold parsedEntry at 2. cbn [fst snd].
  replace (isValidPropertyName P k) with false.
  - apply IH. intros k' Hk'. apply H. now right.
  - symmetry. destruct (isValidPropertyName P k) eqn:E; [|reflexivity].
    apply existsb_eqb_in in E. exfalso. apply (H k); [now left | exact E].
Qed.

End MoreFacts.

Lemma assign_lookup_same (A : Type) (o : list (string * A)) k x :
  lookup o k = Some x -> assign o k x = o.
Proof.
  induction o as [|[k0 y] o IH]; simpl; [discriminate|].
  destruct (String.eqb_spec k0 k) as [->|Hne].
  - now intros [= ->].
  - intros H. now rewrite IH.
Qed.

(** Assigning to properties of an object the values they have. *)
Lemma fold_setProp_same (d : obj) (g : string -> value) l :
  (forall p, In p l -> In p (keys d) /\ g p = getProp (VObj d) p) ->
  fold_left (fun v p => setProp v p (g p)) l (VObj d) = VObj d.
Proof.
  induction l as [|q l IH]; intros H; [reflexivity|].
  cbn [fold_left].
  destruct (H q) as [Hq Hg]; [now left|].
  replace (setProp (VObj d) q (g q)) with (VObj d).
  - apply IH. intros p Hp. apply H. now right.
  - rewrite Hg. simpl.
    destruct (lookup d q) as [x|] eqn:E.
    + now rewrite (assign_lookup_same _ _ E).
    + exfalso. now apply lookup_none_keys in E.
Qed.

(** ** [loadFromFile] of a structured record *)

Lemma loaded_property (P : Plugin) (isInitialLoad : bool)
    (st : State) :
  structured (dataJson st) ->
  NoDup (keys (entries (onLoadRecord P (dataJson st)))) ->
  forall p, In p (propertyNames P) ->
    getProp
      (settings (currentSettingsWrapper (exec (loadFromFile P isInitialLoad) st)))
      p
    = match lookup (entries (onLoadRecord P (dataJson st))) p with
      | Some x => x
      | None => getProp (defaultSettings P) p
      end.
Proof.
  intros Hs Hnd p Hp. unfold exec.
  rewrite (loadFromFile_structured P isInitialLoad st Hs). simpl.
  destruct (loadedWrapper_spec P
              (parsedSettings P (entries (onLoadRecord P (dataJson st)))
                 (VObj (createDefaultSettings P))))
    as (_ & _ & Hprop & _).
  destruct (Hprop p Hp) as (Hset & _). rewrite Hset.
  apply parsedSettings_spec; [assumption | now eexists | assumption].
Qed.

Lemma loaded_by_data (P : Plugin) (flag1 flag2 : bool)
    (st1 st2 : State) :
  dataJson st1 = dataJson st2 ->
  let st1' := exec (loadFromFile P flag1) st1 in
  let st2' := exec (loadFromFile P flag2) st2 in
  currentSettingsWrapper st1' = currentSettingsWrapper st2'
  /\ lastSavedSettingsWrapper st1' = lastSavedSettingsWrapper st2'
  /\ dataJson st1' = dataJson st2'.
Proof.
  intros Hd st1' st2'. subst st1' st2'. unfold exec.
  destruct (load_cases (dataJson st1)) as [Ha | [[Hu Ht] | Hs]].
  - rewrite (loadFromFile_absent P flag1 st1 Ha).
    rewrite Hd in Ha.
    rewrite (loadFromFile_absent P flag2 st2 Ha). simpl. auto.
  - rewrite (loadFromFile_malformed P flag1 st1 Hu Ht).
    rewrite Hd in Hu, Ht.
    rewrite (loadFromFile_malformed P flag2 st2 Hu Ht). simpl. auto.
  - rewrite (loadFromFile_structured P flag1 st1 Hs).
    rewrite Hd in Hs.
    rewrite (loadFromFile_structured P flag2 st2 Hs).
    unfold loadedState. simpl. rewrite Hd. auto.
Qed.

Lemma loaded_dataJson (P : Plugin) (isInitialLoad : bool) (st : State) :
  structured (dataJson st) ->
  let st' := exec (loadFromFile P isInitialLoad) st in
  dataJson st'
  = if negb (deepEqual
               (settingsToRawRecord P (settings (currentSettingsWrapper st')))
               (onLoadRecord P (dataJson st)))
    then jsonRoundTrip
           (settingsToRawRecord P (wrapperObject (currentSettingsWrapper st')))
    else dataJson st.
Proof.
  intros Hs st'. subst st'. unfold exec.
  rewrite (loadFromFile_structured P isInitialLoad st Hs). reflexivity.
Qed.

End MoreFacts.

Module Extras.
Import JS Transformers Manager Spec More ObjectFacts Runs Loops Snapshot
  Validation Saving RoundTrip MoreFacts.

(** X1.  [validate] reports for a property exactly the non-empty message
    of the validator registered last for it: nothing when none is
    registered, when that validator returns nothing or when it returns
    the empty string; earlier registrations for the property and the
    validators of other properties have no part in it. *)
Theorem validate_last_registration (P : Plugin) (settings : value)
    (p : string) :
  lookup (validate P settings) p
  = reported (lookup (rev (registerValidators P)) p) settings p.
Proof.
  unfold validate.
  rewrite validate_fold_spec by apply validators_NoDup.
  unfold validators. rewrite fold_assign_last. simpl.
  destruct (lookup (rev (registerValidators P)) p) as [f|]; [|reflexivity].
  unfold reported.
  destruct (f (getProp settings p) settings) as [m|]; [|reflexivity].
  now destruct (truthy m).
Qed.

Lemma validate_last_registration_witness :
  lookup (validate twiceRegisteredPlugin
            (VObj [("retries", VNum (-1)); ("name", VStr "x")])) "retries"
  = None
  /\ lookup (validate retriesPlugin
               (VObj [("retries", VNum (-1)); ("name", VStr "x")])) "retries"
     = Some "retries must not be negative".
Proof.
  split; rewrite validate_last_registration; reflexivity.
Defined.

(** X2.  [ensureSafe] on a settings object: every listed property that
    [validate] has a message for gets its default value, every other
    property (listed or not) keeps its value; settings that validate
    without a message are returned as they are. *)
Theorem ensureSafe_replaces_invalid (P : Plugin) (settings : value) :
  isObject settings ->
  (forall p, In p (propertyNames P) ->
     getProp (ensureSafe P settings) p
     = if truthy (orEmpty (lookup (validate P settings) p))
       then getProp (defaultSettings P) p
       else getProp settings p)
  /\ (forall p, ~ In p (propertyNames P) ->
        getProp (ensureSafe P settings) p = getProp settings p)
  /\ ((forall p, In p (propertyNames P) ->
         lookup (validate P settings) p = None) ->
      ensureSafe P settings = settings).
Proof.
  intros Hobj.
  destruct (ensureSafe_fold P (validate P settings) (propertyNames P) Hobj)
    as (_ & Hin & Hout).
  split; [exact Hin|]. split; [exact Hout|].
  intros Hvalid. unfold ensureSafe.
  assert (Hall : forall l, incl l (propertyNames P) ->
    fold_left
      (fun settings0 propertyName =>
         match lookup (validate P settings) propertyName with
         | Some m =>
             if truthy m
             then setProp settings0 propertyName
                    (getProp (defaultSettings P) propertyName)
             else settings0
         | None => settings0
         end) l settings = settings).
  { induction l as [|q l IH]; intros Hincl; [reflexivity|].
    cbn [fold_left]. rewrite (Hvalid q) by (apply Hincl; now left).
    apply IH. intros x Hx. apply Hincl. now right. }
  apply Hall. apply incl_refl.
Qed.

Lemma ensureSafe_replaces_invalid_witness :
  let settings := VObj [("retries", VNum (-1)); ("name", VStr "z");
                        ("extra", VBool true)] in
  isObject settings
  /\ getProp (ensureSafe retriesPlugin settings) "retries" = VNum 3
  /\ getProp (ensureSafe retriesPlugin settings) "name" = VStr "z"
  /\ getProp (ensureSafe retriesPlugin settings) "extra" = VBool true.
Proof.
  intros settings.
  assert (Hobj : isObject settings) by (now eexists).
  split; [exact Hobj|].
  destruct (ensureSafe_replaces_invalid retriesPlugin Hobj)
    as (Hin & Hout & _).
  split; [|split].
  - rewrite (Hin "retries") by (simpl; auto). reflexivity.
  - rewrite (Hin "name") by (simpl; auto). reflexivity.
  - rewrite (Hout "extra"); [reflexivity|].
    simpl. intros [H | [H | []]]; discriminate.
Defined.

(** X3.  [getSafeCopy] does not depend on the settings it is given: it
    completes with the settings parsed from an empty record, which are
    the default settings when the load-record hook leaves an empty
    record empty.  It changes neither wrapper nor the host's record and
    hands nothing to [saveData]. *)
Theorem getSafeCopy_returns_defaults (P : Plugin) (settings : value)
    (st : State) :
  let st' := exec (getSafeCopy P settings) st in
  result (getSafeCopy P settings) st
  = Normal (parsedSettings P (entries (onLoadRecord P (VObj [])))
              (VObj (createDefaultSettings P)))
  /\ (entries (onLoadRecord P (VObj [])) = [] ->
      result (getSafeCopy P settings) st = Normal (defaultSettings P))
  /\ currentSettingsWrapper st' = currentSettingsWrapper st
  /\ lastSavedSettingsWrapper st' = lastSavedSettingsWrapper st
  /\ dataJson st' = dataJson st
  /\ writes (trace st') = writes (trace st).
Proof.
  intros st'. subst st'. unfold exec, result, getSafeCopy.
  erewrite bind_normal by apply cloneSettings_run.
  unfold cloneResult. rewrite ensureSafe_promise. simpl.
  split; [reflexivity|]. split.
  - intros ->. reflexivity.
  - repeat split.
    rewrite writes_app, writes_cloneWarnings. apply app_nil_r.
Qed.

Lemma getSafeCopy_returns_defaults_witness :
  entries (onLoadRecord retriesPlugin (VObj [])) = []
  /\ result (getSafeCopy retriesPlugin
               (VObj [("retries", VNum 7); ("name", VStr "kept?")]))
       (construct retriesPlugin VNull [])
     = Normal (VObj [("retries", VNum 3); ("name", VStr "x")]).
Proof.
  assert (H : entries (onLoadRecord retriesPlugin (VObj [])) = [])
    by reflexivity.
  split; [exact H|].
  destruct (getSafeCopy_returns_defaults retriesPlugin
              (VObj [("retries", VNum 7); ("name", VStr "kept?")])
              (construct retriesPlugin VNull [])) as (_ & Hd & _).
  rewrite (Hd H). reflexivity.
Defined.

(** X4.  [settingsToRawRecord] reads the listed properties and nothing
    else: settings that agree on every name of the fixed property-name
    list give the same record, whatever else they hold. *)
Theorem settingsToRawRecord_reads_listed (P : Plugin)
    (settings settings' : value) :
  (forall p, In p (propertyNames P) ->
     getProp settings p = getProp settings' p) ->
  settingsToRawRecord P settings = settingsToRawRecord P settings'.
Proof.
  intros H. unfold settingsToRawRecord. do 2 f_equal.
  assert (Hall : forall l rawRecord, incl l (propertyNames P) ->
    fold_left (fun rawRecord propertyName =>
                 setProp rawRecord propertyName (getProp settings propertyName))
      l rawRecord
    = fold_left (fun rawRecord propertyName =>
                   setProp rawRecord propertyName
                     (getProp settings' propertyName))
        l rawRecord).
  { induction l as [|q l IH]; intros rawRecord Hincl; [reflexivity|].
    cbn [fold_left]. rewrite (H q) by (apply Hincl; now left).
    apply IH. intros x Hx. apply Hincl. now right. }
  apply Hall. apply incl_refl.
Qed.

Lemma settingsToRawRecord_reads_listed_witness :
  let settings :=
    VObj [("retries", VNum 5); ("name", VStr "n"); ("extra", VNum 1)] in
  let settings' := VObj [("name", VStr "n"); ("retries", VNum 5)] in
  (forall p, In p (propertyNames retriesPlugin) ->
     getProp settings p = getProp settings' p)
  /\ settingsToRawRecord retriesPlugin settings
     = settingsToRawRecord retriesPlugin settings'.
Proof.
  intros settings settings'.
  assert (H : forall p, In p (propertyNames retriesPlugin) ->
                getProp settings p = getProp settings' p)
    by (intros p [<- | [<- | []]]; reflexivity).
  split; [exact H|].
  exact (settingsToRawRecord_reads_listed retriesPlugin settings settings' H).
Defined.

(** X5.  Loading a structured record whose property names are distinct
    (as the load-record hook left it): every listed property takes the
    record's value as it is when the record has it, and the default
    value when the record lacks it. *)
Theorem load_takes_record_or_default (P : Plugin) (isInitialLoad : bool)
    (st : State) :
  structured (dataJson st) ->
  NoDup (keys (entries (onLoadRecord P (dataJson st)))) ->
  forall p, In p (propertyNames P) ->
    getProp
      (settings (currentSettingsWrapper (exec (loadFromFile P isInitialLoad) st)))
      p
    = match lookup (entries (onLoadRecord P (dataJson st))) p with
      | Some x => x
      | None => getProp (defaultSettings P) p
      end.
Proof. exact (loaded_property P isInitialLoad st). Qed.

Lemma load_takes_record_or_default_witness :
  let st := construct retriesPlugin (VObj [("name", VStr "y")]) [] in
  let st' := exec (loadFromFile retriesPlugin true) st in
  structured (dataJson st)
  /\ NoDup (keys (entries (onLoadRecord retriesPlugin (dataJson st))))
  /\ getProp (settings (currentSettingsWrapper st')) "name" = VStr "y"
  /\ getProp (settings (currentSettingsWrapper st')) "retries" = VNum 3.
Proof.
  intros st st'.
  assert (Hs : structured (dataJson st)) by (repeat split; discriminate).
  assert (Hnd : NoDup (keys (entries (onLoadRecord retriesPlugin (dataJson st)))))
    by (repeat constructor; simpl; tauto).
  split; [exact Hs|]. split; [exact Hnd|].
  unfold st'. split.
  - rewrite (load_takes_record_or_default retriesPlugin true st Hs Hnd "name")
      by (simpl; auto).
    reflexivity.
  - rewrite (load_takes_record_or_default retriesPlugin true st Hs Hnd "retries")
      by (simpl; auto).
    reflexivity.
Defined.

(** X6.  The type check of the load is a warning only: a listed property
    of a structured record whose [typeof] differs from that of its
    default gets the possible-invalid-type warning, with the default, the
    name and the value, and is stored all the same. *)
Theorem load_warns_on_type_and_keeps (P : Plugin) (isInitialLoad : bool)
    (st : State) (k : string) (x : value) :
  structured (dataJson st) ->
  NoDup (keys (entries (onLoadRecord P (dataJson st)))) ->
  In (k, x) (entries (onLoadRecord P (dataJson st))) ->
  In k (propertyNames P) ->
  typeOf x <> typeOf (getProp (defaultSettings P) k) ->
  let st' := exec (loadFromFile P isInitialLoad) st in
  In (ConsoleWarn invalidTypeWarning
        [VObj [("defaultValue", getProp (defaultSettings P) k);
               ("propertyName", VStr k);
               ("value", x)]])
     (trace st')
  /\ getProp (settings (currentSettingsWrapper st')) k = x.
Proof.
  intros Hs Hnd Hin Hk Ht st'. subst st'. split.
  - unfold exec.
    rewrite (loadFromFile_structured P isInitialLoad st Hs). simpl.
    apply in_or_app. right. apply in_or_app. left.
    unfold parseWarnings. apply in_flat_map.
    exists (k, x). split; [assumption|].
    unfold parseWarning. cbn [fst snd].
    replace (isValidPropertyName P k) with true
      by (symmetry; now apply existsb_eqb_in).
    apply String.eqb_neq in Ht. rewrite Ht. cbn [negb]. now left.
  - rewrite (loaded_property P isInitialLoad st Hs Hnd k Hk).
    assert (Hl : lookup (entries (onLoadRecord P (dataJson st))) k = Some x).
    { clear - Hnd Hin.
      induction (entries (onLoadRecord P (dataJson st))) as [|[k0 y] l IH];
        [contradiction|].
      simpl in *. inversion Hnd as [|? ? Hfresh Hnd']; subst.
      destruct Hin as [Heq | Hin].
      - inversion Heq; subst. now rewrite String.eqb_refl.
      - destruct (String.eqb_spec k0 k) as [->|Hne]; [|auto].
        exfalso. apply Hfresh. change (In k (keys l)).
        unfold keys. apply in_map_iff. now exists (k, x). }
    now rewrite Hl.
Qed.

Lemma load_warns_on_type_and_keeps_witness :
  let st := construct retriesPlugin (VObj [("name", VNum 4)]) [] in
  let st' := exec (loadFromFile retriesPlugin true) st in
  structured (dataJson st)
  /\ typeOf (VNum 4) <> typeOf (getProp (defaultSettings retriesPlugin) "name")
  /\ In (ConsoleWarn invalidTypeWarning
           [VObj [("defaultValue", VStr "x");
                  ("propertyName", VStr "name");
                  ("value", VNum 4)]])
        (trace st')
  /\ getProp (settings (currentSettingsWrapper st')) "name" = VNum 4.
Proof.
  intros st st'.
  assert (Hs : structured (dataJson st)) by (repeat split; discriminate).
  assert (Ht : typeOf (VNum 4)
               <> typeOf (getProp (defaultSettings retriesPlugin) "name"))
    by (simpl; discriminate).
  split; [exact Hs|]. split; [exact Ht|].
  apply (load_warns_on_type_and_keeps retriesPlugin true st "name" (VNum 4) Hs).
  - repeat constructor; simpl; tauto.
  - simpl. auto.
  - simpl. auto.
  - exact Ht.
Defined.

(** X7.  A structured record all of whose properties are listed and have
    the [typeof] of their default loads without console output, when the
    load-record hook leaves an empty record empty. *)
Theorem load_of_matching_record_is_silent (P : Plugin)
    (isInitialLoad : bool) (st : State) :
  structured (dataJson st) ->
  (forall k x, In (k, x) (entries (onLoadRecord P (dataJson st))) ->
     In k (propertyNames P)
     /\ typeOf x = typeOf (getProp (defaultSettings P) k)) ->
  entries (onLoadRecord P (VObj [])) = [] ->
  consoleOutput (trace (exec (loadFromFile P isInitialLoad) st))
  = consoleOutput (trace st).
Proof.
  intros Hs Hall Hempty. unfold exec.
  rewrite (loadFromFile_structured P isInitialLoad st Hs).
  unfold loadedState. cbn [snd trace].
  rewrite (parseWarnings_silent P _ Hall).
  unfold cloneWarnings. rewrite Hempty. cbn [parseWarnings flat_map app].
  rewrite consoleOutput_app.
  destruct (negb (deepEqual _ _)); simpl; apply app_nil_r.
Qed.

Lemma load_of_matching_record_is_silent_witness :
  let st := construct retriesPlugin (VObj [("retries", VNum 9)]) [] in
  structured (dataJson st)
  /\ entries (onLoadRecord retriesPlugin (VObj [])) = []
  /\ consoleOutput (trace (exec (loadFromFile retriesPlugin true) st)) = [].
Proof.
  intros st.
  assert (Hs : structured (dataJson st)) by (repeat split; discriminate).
  assert (He : entries (onLoadRecord retriesPlugin (VObj [])) = [])
    by reflexivity.
  split; [exact Hs|]. split; [exact He|].
  rewrite (load_of_matching_record_is_silent retriesPlugin true st Hs);
    [reflexivity | | exact He].
  intros k x [Heq | []]. inversion Heq; subst. simpl. auto.
Defined.

(** X8.  [loadFromFile] replaces both wrappers wholesale: what they are
    afterwards, and what the host then holds, depends on the record
    loaded only, not on the wrappers before (unsaved edits are gone) nor
    on the [isInitialLoad] flag. *)
Theorem load_forgets_wrappers (P : Plugin) (flag1 flag2 : bool)
    (st1 st2 : State) :
  dataJson st1 = dataJson st2 ->
  let st1' := exec (loadFromFile P flag1) st1 in
  let st2' := exec (loadFromFile P flag2) st2 in
  currentSettingsWrapper st1' = currentSettingsWrapper st2'
  /\ lastSavedSettingsWrapper st1' = lastSavedSettingsWrapper st2'
  /\ dataJson st1' = dataJson st2'.
Proof. exact (loaded_by_data P flag1 flag2 st1 st2). Qed.

Lemma load_forgets_wrappers_witness :
  let fresh := construct retriesPlugin (VObj [("name", VStr "y")]) [] in
  let edited := exec (edit retriesPlugin (setRetries 8)) fresh in
  dataJson fresh = dataJson edited
  /\ currentSettingsWrapper edited <> currentSettingsWrapper fresh
  /\ currentSettingsWrapper (exec (loadFromFile retriesPlugin false) edited)
     = currentSettingsWrapper (exec (loadFromFile retriesPlugin true) fresh).
Proof.
  intros fresh edited.
  assert (Hd : dataJson fresh = dataJson edited) by reflexivity.
  split; [exact Hd|]. split; [simpl; discriminate|].
  destruct (load_forgets_wrappers retriesPlugin true false fresh edited Hd)
    as (Hc & _).
  symmetry. exact Hc.
Defined.

(** X9.  [plugin.onLoadSettings] is called exactly when the record is
    structured, once, last of all, with the current wrapper and the
    [isInitialLoad] flag; on the two early returns (no record, or not an
    object) it is not called. *)
Theorem load_notifies_only_structured (P : Plugin) (isInitialLoad : bool)
    (st : State) :
  let st' := exec (loadFromFile P isInitialLoad) st in
  (structured (dataJson st) ->
     loadNotifications (trace st')
     = loadNotifications (trace st)
       ++ [(currentSettingsWrapper st', isInitialLoad)]
     /\ exists events,
          trace st'
          = events
            ++ [OnLoadSettings (currentSettingsWrapper st') isInitialLoad])
  /\ (~ structured (dataJson st) ->
      loadNotifications (trace st') = loadNotifications (trace st)).
Proof.
  intros st'. subst st'. unfold exec. split.
  - intros Hs.
    rewrite (loadFromFile_structured P isInitialLoad st Hs).
    unfold loadedState. cbn [snd trace currentSettingsWrapper].
    destruct (parseWarnings_only_warn P
                (entries (onLoadRecord P (dataJson st)))) as (Hp & _).
    destruct (parseWarnings_only_warn P
                (entries (onLoadRecord P (VObj [])))) as (Hc & _).
    split.
    + rewrite !loadNotifications_app, Hp. unfold cloneWarnings.
      rewrite Hc. destruct (negb (deepEqual _ _)); reflexivity.
    + eexists. rewrite !app_assoc. reflexivity.
  - intros Hn.
    destruct (load_cases (dataJson st)) as [Ha | [[Hu Ht] | Hs]].
    + now rewrite (loadFromFile_absent P isInitialLoad st Ha).
    + rewrite (loadFromFile_malformed P isInitialLoad st Hu Ht). simpl.
      rewrite loadNotifications_app. simpl. apply app_nil_r.
    + contradiction.
Qed.

Lemma load_notifies_only_structured_witness :
  let absent := construct retriesPlugin VNull [] in
  let present := construct retriesPlugin (VObj []) [] in
  ~ structured (dataJson absent)
  /\ structured (dataJson present)
  /\ loadNotifications (trace (exec (loadFromFile retriesPlugin true) absent))
     = []
  /\ List.length
       (loadNotifications
          (trace (exec (loadFromFile retriesPlugin true) present))) = 1.
Proof.
  intros absent present.
  assert (Ha : ~ structured (dataJson absent))
    by (intros (_ & H & _); now apply H).
  assert (Hp : structured (dataJson present))
    by (repeat split; discriminate).
  split; [exact Ha|]. split; [exact Hp|].
  destruct (load_notifies_only_structured retriesPlugin true absent)
    as (_ & Hno).
  destruct (load_notifies_only_structured retriesPlugin true present)
    as (Hyes & _).
  split.
  - rewrite (Hno Ha). reflexivity.
  - destruct (Hyes Hp) as (Hl & _). rewrite Hl. reflexivity.
Defined.

(** X10.  [loadFromFile] of a structured record writes back exactly when
    the re-serialized current settings are not deep-equal to the record
    (as the load-record hook left it), and then once: the host's record
    becomes what JSON keeps of the written record; otherwise nothing is
    handed to [saveData] and the host's record is untouched. *)
Theorem load_writes_back_iff_differs (P : Plugin) (isInitialLoad : bool)
    (st : State) :
  structured (dataJson st) ->
  let st' := exec (loadFromFile P isInitialLoad) st in
  let differs :=
    negb (deepEqual
            (settingsToRawRecord P (settings (currentSettingsWrapper st')))
            (onLoadRecord P (dataJson st))) in
  let written :=
    settingsToRawRecord P (wrapperObject (currentSettingsWrapper st')) in
  writes (trace st')
  = writes (trace st) ++ (if differs then [written] else [])
  /\ dataJson st' = if differs then jsonRoundTrip written else dataJson st.
Proof.
  intros Hs st' differs written. subst differs written. split.
  - exact (loadFromFile_writes P isInitialLoad st Hs).
  - exact (loaded_dataJson P isInitialLoad st Hs).
Qed.

Lemma load_writes_back_iff_differs_witness :
  let same :=
    construct retriesPlugin (VObj [("retries", VNum 3); ("name", VStr "x")]) [] in
  let short := construct retriesPlugin (VObj [("retries", VNum 3)]) [] in
  structured (dataJson same)
  /\ structured (dataJson short)
  /\ writes (trace (exec (loadFromFile retriesPlugin true) same)) = []
  /\ dataJson (exec (loadFromFile retriesPlugin true) same) = dataJson same
  /\ List.length (writes (trace (exec (loadFromFile retriesPlugin true) short)))
     = 1.
Proof.
  intros same short.
  assert (H1 : structured (dataJson same)) by (repeat split; discriminate).
  assert (H2 : structured (dataJson short)) by (repeat split; discriminate).
  split; [exact H1|]. split; [exact H2|].
  destruct (load_writes_back_iff_differs retriesPlugin true same H1)
    as (Hw1 & Hd1).
  destruct (load_writes_back_iff_differs retriesPlugin true short H2)
    as (Hw2 & _).
  split; [|split].
  - rewrite Hw1. reflexivity.
  - rewrite Hd1. reflexivity.
  - rewrite Hw2. reflexivity.
Defined.

(** X11.  [saveToFile] never changes the current wrapper.  When the
    last-saved settings are not deep-equal to the current ones it hands
    one record to [saveData] and then calls [plugin.onSaveSettings] once,
    with the current wrapper, the wrapper that was last saved before, and
    the caller's context; when they are deep-equal it changes nothing at
    all and calls nothing. *)
Theorem save_writes_and_notifies_once (P : Plugin) (context : value)
    (st : State) :
  let st' := exec (saveToFile P context) st in
  let dirty :=
    negb (deepEqual (settings (lastSavedSettingsWrapper st))
            (settings (currentSettingsWrapper st))) in
  currentSettingsWrapper st' = currentSettingsWrapper st
  /\ writes (trace st')
     = writes (trace st)
       ++ (if dirty
           then [settingsToRawRecord P
                   (wrapperObject (currentSettingsWrapper st))]
           else [])
  /\ saveNotifications (trace st')
     = saveNotifications (trace st)
       ++ (if dirty
           then [(currentSettingsWrapper st, lastSavedSettingsWrapper st,
                  context)]
           else [])
  /\ (dirty = true ->
      exists events,
        trace st'
        = trace st
          ++ [SaveData (settingsToRawRecord P
                          (wrapperObject (currentSettingsWrapper st)));
              OnSaveSettings (currentSettingsWrapper st)
                (lastSavedSettingsWrapper st) context]
          ++ events)
  /\ (dirty = false -> st' = st).
Proof.
  intros st' dirty. subst st' dirty.
  split; [apply saveToFile_current|].
  destruct (deepEqual (settings (lastSavedSettingsWrapper st))
              (settings (currentSettingsWrapper st))) eqn:E; cbn [negb].
  - rewrite (saveToFile_clean_noop P context st E), !app_nil_r.
    repeat split; auto. discriminate.
  - split; [now apply saveToFile_dirty_writes|].
    unfold exec. rewrite (saveToFile_dirty P context st E).
    unfold savedState. cbn [snd trace].
    destruct (parseWarnings_only_warn P
                (entries (onLoadRecord P (VObj [])))) as (_ & Hc & _).
    split; [|split].
    + rewrite !saveNotifications_app. unfold cloneWarnings. rewrite Hc.
      reflexivity.
    + intros _. eexists. reflexivity.
    + discriminate.
Qed.

Lemma save_writes_and_notifies_once_witness :
  let st := exec (edit counterPlugin (setA 1))
              (construct counterPlugin VNull []) in
  let st' := exec (saveToFile counterPlugin (VStr "why")) st in
  negb (deepEqual (settings (lastSavedSettingsWrapper st))
          (settings (currentSettingsWrapper st))) = true
  /\ saveNotifications (trace st')
     = [(currentSettingsWrapper st, createDefaultSettingsWrapper counterPlugin,
         VStr "why")].
Proof.
  intros st st'.
  assert (Hd : negb (deepEqual (settings (lastSavedSettingsWrapper st))
                       (settings (currentSettingsWrapper st))) = true)
    by reflexivity.
  split; [exact Hd|].
  destruct (save_writes_and_notifies_once counterPlugin (VStr "why") st)
    as (_ & _ & Hn & _).
  unfold st'. rewrite Hn, Hd. reflexivity.
Defined.

(** X12.  While the last-saved wrapper is the one the constructor made,
    the dirty check works: with well-formed default settings,
    [saveToFile] right after the constructor, or right after a
    [loadFromFile] that found no structured record, changes nothing and
    hands nothing to [saveData]. *)
Theorem save_without_edit_is_noop (P : Plugin) (context : value) :
  wellFormed (defaultSettings P) = true ->
  (forall data events,
     exec (saveToFile P context) (construct P data events)
     = construct P data events)
  /\ (forall st isInitialLoad,
        ~ structured (dataJson st) ->
        exec (saveToFile P context) (exec (loadFromFile P isInitialLoad) st)
        = exec (loadFromFile P isInitialLoad) st).
Proof.
  intros Hwf.
  pose proof (deepEqual_refl (defaultSettings P) Hwf) as Hrefl.
  split.
  - intros data events. now apply saveToFile_clean_noop.
  - intros st isInitialLoad Hn.
    apply saveToFile_clean_noop. unfold exec.
    destruct (load_cases (dataJson st)) as [Ha | [[Hu Ht] | Hs]].
    + now rewrite (loadFromFile_absent P isInitialLoad st Ha).
    + now rewrite (loadFromFile_malformed P isInitialLoad st Hu Ht).
    + contradiction.
Qed.

Lemma save_without_edit_is_noop_witness :
  wellFormed (defaultSettings retriesPlugin) = true
  /\ writes (trace (exec (saveToFile retriesPlugin VUndefined)
                      (construct retriesPlugin VNull [])))
     = [].
Proof.
  assert (Hwf : wellFormed (defaultSettings retriesPlugin) = true)
    by reflexivity.
  split; [exact Hwf|].
  destruct (save_without_edit_is_noop retriesPlugin VUndefined Hwf) as (H & _).
  rewrite H. reflexivity.
Defined.

(** X13.  After a [loadFromFile] of a structured record the last-saved
    settings are what the un-awaited [cloneSettings] returned, so with at
    least one listed property the next [saveToFile] hands a record to
    [saveData] although nothing was edited. *)
Theorem save_after_load_writes (P : Plugin) (isInitialLoad : bool)
    (context : value) (st : State) :
  structured (dataJson st) ->
  propertyNames P <> [] ->
  let st1 := exec (loadFromFile P isInitialLoad) st in
  writes (trace (exec (saveToFile P context) st1))
  = writes (trace st1)
    ++ [settingsToRawRecord P (wrapperObject (currentSettingsWrapper st1))].
Proof.
  intros Hs Hne st1. subst st1.
  apply saveToFile_dirty_writes.
  rewrite (loadFromFile_lastSaved P isInitialLoad st Hs).
  unfold exec. rewrite (loadFromFile_structured P isInitialLoad st Hs).
  cbn [snd loadedState currentSettingsWrapper clonedWrapper settings].
  destruct (loadedWrapper_spec P
              (parsedSettings P (entries (onLoadRecord P (dataJson st)))
                 (VObj (createDefaultSettings P))))
    as (_ & [fs Hfs] & _ & Hkeys & _).
  rewrite Hfs in *. unfold cloneResult.
  destruct fs as [|kv fs]; [|reflexivity].
  exfalso. destruct (propertyNames P) as [|q l]; [now apply Hne|].
  apply (Hkeys q). now left.
Qed.

Lemma save_after_load_writes_witness :
  let st := construct retriesPlugin
              (VObj [("retries", VNum 3); ("name", VStr "x")]) [] in
  let st1 := exec (loadFromFile retriesPlugin true) st in
  structured (dataJson st)
  /\ propertyNames retriesPlugin <> []
  /\ writes (trace st1) = []
  /\ List.length (writes (trace (exec (saveToFile retriesPlugin VUndefined) st1)))
     = 1.
Proof.
  intros st st1.
  assert (Hs : structured (dataJson st)) by (repeat split; discriminate).
  assert (Hne : propertyNames retriesPlugin <> []) by discriminate.
  split; [exact Hs|]. split; [exact Hne|]. split; [reflexivity|].
  unfold st1.
  rewrite (save_after_load_writes retriesPlugin true VUndefined st Hs Hne).
  reflexivity.
Defined.

(** X14.  [edit] and [setProperty] work on the current wrapper only:
    they hand nothing to [saveData], call no hook, print nothing, and
    leave the last-saved wrapper and the host's record as they are; the
    same holds for [editAndSave] when the editor throws. *)
Theorem edit_touches_current_only (P : Plugin) (st : State) :
  (forall settingsEditor,
     let st' := exec (edit P settingsEditor) st in
     trace st' = trace st
     /\ dataJson st' = dataJson st
     /\ lastSavedSettingsWrapper st' = lastSavedSettingsWrapper st)
  /\ (forall propertyName value,
        let st' := exec (setProperty P propertyName value) st in
        trace st' = trace st
        /\ dataJson st' = dataJson st
        /\ lastSavedSettingsWrapper st' = lastSavedSettingsWrapper st)
  /\ (forall settingsEditor context e,
        snd (settingsEditor (settings (currentSettingsWrapper st))) = Some e ->
        let st' := exec (editAndSave P settingsEditor context) st in
        trace st' = trace st
        /\ dataJson st' = dataJson st
        /\ lastSavedSettingsWrapper st' = lastSavedSettingsWrapper st).
Proof.
  split; [|split].
  - intros settingsEditor st'. subst st'. unfold exec.
    rewrite edit_run. repeat split.
  - intros propertyName value st'. subst st'. unfold exec.
    rewrite setProperty_run. repeat split.
  - intros settingsEditor context e He st'. subst st'. unfold exec.
    rewrite editAndSave_run, He. repeat split.
Qed.

Lemma edit_touches_current_only_witness :
  let st := construct retriesPlugin (VObj [("retries", VNum 1)]) [] in
  snd (setRetriesAndThrow 5 (settings (currentSettingsWrapper st)))
  = Some (VStr "boom")
  /\ writes (trace (exec (editAndSave retriesPlugin (setRetriesAndThrow 5)
                            VUndefined) st))
     = []
  /\ dataJson (exec (editAndSave retriesPlugin (setRetriesAndThrow 5)
                       VUndefined) st)
     = VObj [("retries", VNum 1)].
Proof.
  intros st.
  assert (He : snd (setRetriesAndThrow 5 (settings (currentSettingsWrapper st)))
               = Some (VStr "boom")) by reflexivity.
  split; [exact He|].
  destruct (edit_touches_current_only retriesPlugin st) as (_ & _ & H).
  destruct (H (setRetriesAndThrow 5) VUndefined (VStr "boom") He)
    as (Ht & Hd & _).
  split.
  - rewrite Ht. reflexivity.
  - rewrite Hd. reflexivity.
Defined.

(** X15.  [setProperty] of a listed property, on a manager whose two
    settings views are objects: the settings hold the new value, the
    method returns the message [validate] gives for the settings so
    changed (the empty string when there is none), and the safe settings
    hold the new value when that message is empty and the default
    otherwise; every other property of the settings keeps its value. *)
Theorem setProperty_of_listed (P : Plugin) (st : State)
    (propertyName : string) (value : value) :
  isObject (settings (currentSettingsWrapper st)) ->
  isObject (safeSettings (currentSettingsWrapper st)) ->
  In propertyName (propertyNames P) ->
  let changed :=
    setProp (settings (currentSettingsWrapper st)) propertyName value in
  let message := orEmpty (lookup (validate P changed) propertyName) in
  let w' :=
    currentSettingsWrapper (exec (setProperty P propertyName value) st) in
  result (setProperty P propertyName value) st = Normal (Some message)
  /\ getProp (settings w') propertyName = value
  /\ getProp (safeSettings w') propertyName
     = (if truthy message
        then getProp (defaultSettings P) propertyName
        else value)
  /\ (forall q, q <> propertyName ->
        getProp (settings w') q
        = getProp (settings (currentSettingsWrapper st)) q).
Proof.
  intros Hset Hsafe Hin changed message w'. subst w'.
  unfold exec, result. rewrite setProperty_run.
  cbn [fst snd]. unfold editedState, withCurrent.
  cbn [currentSettingsWrapper fst].
  set (w0 := {| safeSettings := safeSettings (currentSettingsWrapper st);
                settings := changed;
                validationMessages :=
                  validationMessages (currentSettingsWrapper st) |}).
  destruct (revalidated_spec P w0 Hsafe) as (Hs & _ & Hp).
  destruct (Hp propertyName Hin) as (Hm & Hv).
  fold changed. fold w0. rewrite Hs, Hm, Hv. cbn [settings w0].
  fold message.
  assert (Hnew : getProp changed propertyName = value)
    by (now apply getProp_setProp_same).
  rewrite Hnew. repeat split.
  intros q Hq. unfold changed. apply getProp_setProp_other. congruence.
Qed.

Lemma setProperty_of_listed_witness :
  let st := construct retriesPlugin VNull [] in
  let st' := exec (setProperty retriesPlugin "retries" (VNum (-2))) st in
  isObject (settings (currentSettingsWrapper st))
  /\ isObject (safeSettings (currentSettingsWrapper st))
  /\ result (setProperty retriesPlugin "retries" (VNum (-2))) st
     = Normal (Some "retries must not be negative")
  /\ getProp (safeSettings (currentSettingsWrapper st')) "retries" = VNum 3
  /\ getProp (settings (currentSettingsWrapper st')) "retries" = VNum (-2).
Proof.
  intros st st'.
  assert (H1 : isObject (settings (currentSettingsWrapper st)))
    by (now eexists).
  assert (H2 : isObject (safeSettings (currentSettingsWrapper st)))
    by (now eexists).
  split; [exact H1|]. split; [exact H2|].
  destruct (setProperty_of_listed retriesPlugin st "retries" (VNum (-2))
              H1 H2 (or_introl eq_refl)) as (Hr & Hs & Hsafe & _).
  unfold st'. split; [|split].
  - rewrite Hr. reflexivity.
  - rewrite Hsafe. reflexivity.
  - exact Hs.
Defined.

(** X16.  [setProperty] of a name that is not listed adds the property to
    the settings and to nothing else: the validation messages and the
    safe settings have for that name what they had before, and the
    method returns the message that was there before ([undefined] when
    there was none). *)
Theorem setProperty_of_unlisted (P : Plugin) (st : State)
    (propertyName : string) (value : value) :
  isObject (settings (currentSettingsWrapper st)) ->
  ~ In propertyName (propertyNames P) ->
  let w := currentSettingsWrapper st in
  let w' :=
    currentSettingsWrapper (exec (setProperty P propertyName value) st) in
  result (setProperty P propertyName value) st
  = Normal (lookup (validationMessages w) propertyName)
  /\ getProp (settings w') propertyName = value
  /\ In propertyName (getAllKeys (settings w'))
  /\ lookup (validationMessages w') propertyName
     = lookup (validationMessages w) propertyName
  /\ getProp (safeSettings w') propertyName
     = getProp (safeSettings w) propertyName.
Proof.
  intros Hset Hout w w'. subst w w'.
  unfold exec, result. rewrite setProperty_run.
  cbn [fst snd]. unfold editedState, withCurrent.
  cbn [currentSettingsWrapper fst].
  set (changed :=
         setProp (settings (currentSettingsWrapper st)) propertyName value).
  set (w0 := {| safeSettings := safeSettings (currentSettingsWrapper st);
                settings := changed;
                validationMessages :=
                  validationMessages (currentSettingsWrapper st) |}).
  unfold revalidated.
  destruct (recomputed_views P (validate P (settings w0)) (propertyNames P) w0)
    as (Hs & Hm & Hsafe).
  cbv zeta in Hs, Hm, Hsafe. rewrite Hs, Hm, Hsafe. cbn [settings w0
    validationMessages safeSettings].
  destruct (fold_assign
              (fun p => orEmpty (lookup (validate P changed) p))
              (propertyNames P) (validationMessages (currentSettingsWrapper st)))
    as (_ & Hmout & _).
  cbv zeta in Hmout. rewrite (Hmout propertyName Hout).
  assert (Hsafeout : forall l v,
    ~ In propertyName l ->
    getProp
      (fold_left
         (fun v p =>
            setProp v p
              (if truthy (orEmpty (lookup (validate P changed) p))
               then getProp (defaultSettings P) p
               else getProp changed p))
         l v)
      propertyName
    = getProp v propertyName).
  { induction l as [|q l IH]; intros v Hl; [reflexivity|].
    cbn [fold_left]. rewrite IH by (intros H; apply Hl; now right).
    apply getProp_setProp_other. intros ->. apply Hl. now left. }
  rewrite (Hsafeout _ _ Hout).
  assert (Hnew : getProp changed propertyName = value)
    by (now apply getProp_setProp_same).
  repeat split; [exact Hnew|].
  unfold changed. apply getAllKeys_setProp; [assumption | now left].
Qed.

Lemma setProperty_of_unlisted_witness :
  let st := exec (loadFromFile retriesPlugin true)
              (construct retriesPlugin (VObj []) []) in
  let st' := exec (setProperty retriesPlugin "colour" (VStr "red")) st in
  isObject (settings (currentSettingsWrapper st))
  /\ ~ In "colour" (propertyNames retriesPlugin)
  /\ result (setProperty retriesPlugin "colour" (VStr "red")) st = Normal None
  /\ In "colour" (getAllKeys (settings (currentSettingsWrapper st')))
  /\ getProp (safeSettings (currentSettingsWrapper st')) "colour" = VUndefined.
Proof.
  intros st st'.
  assert (H1 : isObject (settings (currentSettingsWrapper st)))
    by (now eexists).
  assert (H2 : ~ In "colour" (propertyNames retriesPlugin))
    by (simpl; intros [H | [H | []]]; discriminate).
  split; [exact H1|]. split; [exact H2|].
  destruct (setProperty_of_unlisted retriesPlugin st "colour" (VStr "red")
              H1 H2) as (Hr & _ & Hk & _ & Hsafe).
  unfold st'. split; [|split].
  - rewrite Hr. reflexivity.
  - exact Hk.
  - rewrite Hsafe. reflexivity.
Defined.

(** X17.  A structured record none of whose properties is listed (an
    empty object, an array, a record of another plugin) is loaded as the
    default settings: both the settings and the safe settings of the
    current wrapper are the default settings. *)
Theorem load_of_foreign_record_gives_defaults (P : Plugin)
    (isInitialLoad : bool) (st : State) :
  structured (dataJson st) ->
  (forall k, In k (keys (entries (onLoadRecord P (dataJson st)))) ->
     ~ In k (propertyNames P)) ->
  let w' := currentSettingsWrapper (exec (loadFromFile P isInitialLoad) st) in
  settings w' = defaultSettings P /\ safeSettings w' = defaultSettings P.
Proof.
  intros Hs Hforeign w'. subst w'. unfold exec.
  rewrite (loadFromFile_structured P isInitialLoad st Hs).
  unfold loadedState. cbn [snd currentSettingsWrapper].
  rewrite (parsedSettings_unknown P _ _ Hforeign).
  unfold loadedWrapper.
  destruct (stored_views P (VObj (createDefaultSettings P))
              (validate P (VObj (createDefaultSettings P)))
              (propertyNames P) (createDefaultSettingsWrapper P))
    as (Hset & _ & Hsafe).
  cbv zeta in Hset, Hsafe. rewrite Hset, Hsafe.
  unfold defaultSettings. cbn [settings safeSettings
    createDefaultSettingsWrapper].
  split; apply fold_setProp_same; intros p Hp; (split; [exact Hp|]).
  - reflexivity.
  - now destruct (truthy _).
Qed.

Lemma load_of_foreign_record_gives_defaults_witness :
  let st := construct retriesPlugin (VArr [VNum 1; VStr "two"]) [] in
  structured (dataJson st)
  /\ settings (currentSettingsWrapper (exec (loadFromFile retriesPlugin true) st))
     = VObj [("retries", VNum 3); ("name", VStr "x")].
Proof.
  intros st.
  assert (Hs : structured (dataJson st)) by (repeat split; discriminate).
  split; [exact Hs|].
  destruct (load_of_foreign_record_gives_defaults retriesPlugin true st Hs)
    as (H & _).
  - simpl. intros k [<- | [<- | []]] [H | [H | []]]; discriminate.
  - rewrite H. reflexivity.
Defined.

(** X18.  Loading is repeatable when no write-back is due: if the
    re-serialized settings are deep-equal to the structured record, a
    second [loadFromFile] ends with the same two wrappers and the same
    record at the host, and again hands nothing to [saveData]. *)
Theorem load_twice_without_write_back (P : Plugin) (flag1 flag2 : bool)
    (st : State) :
  structured (dataJson st) ->
  let st1 := exec (loadFromFile P flag1) st in
  let st2 := exec (loadFromFile P flag2) st1 in
  deepEqual (settingsToRawRecord P (settings (currentSettingsWrapper st1)))
    (onLoadRecord P (dataJson st)) = true ->
  currentSettingsWrapper st2 = currentSettingsWrapper st1
  /\ lastSavedSettingsWrapper st2 = lastSavedSettingsWrapper st1
  /\ dataJson st2 = dataJson st
  /\ writes (trace st2) = writes (trace st).
Proof.
  intros Hs st1 st2 Hsame.
  pose proof (loadFromFile_writes P flag1 st Hs) as Hw1.
  pose proof (loaded_dataJson P flag1 st Hs) as Hd1.
  cbv zeta in Hw1, Hd1. fold st1 in Hw1, Hd1.
  rewrite Hsame in Hw1, Hd1. cbn [negb] in Hw1, Hd1.
  rewrite app_nil_r in Hw1.
  destruct (loaded_by_data P flag2 flag1 st1 st Hd1) as (Hc & Hl & Hd).
  fold st1 st2 in Hc, Hl, Hd.
  split; [exact Hc|]. split; [exact Hl|].
  split; [now rewrite Hd|].
  assert (Hs1 : structured (dataJson st1)) by now rewrite Hd1.
  pose proof (loadFromFile_writes P flag2 st1 Hs1) as Hw2.
  cbv zeta in Hw2. fold st2 in Hw2.
  rewrite Hc, Hd1, Hsame in Hw2. cbn [negb] in Hw2.
  now rewrite Hw2, app_nil_r.
Qed.

Lemma load_twice_without_write_back_witness :
  let st :=
    construct retriesPlugin (VObj [("retries", VNum 3); ("name", VStr "x")]) [] in
  let st1 := exec (loadFromFile retriesPlugin true) st in
  let st2 := exec (loadFromFile retriesPlugin false) st1 in
  structured (dataJson st)
  /\ writes (trace st2) = []
  /\ currentSettingsWrapper st2 = currentSettingsWrapper st1.
Proof.
  intros st st1 st2.
  assert (Hs : structured (dataJson st)) by (repeat split; discriminate).
  split; [exact Hs|].
  destruct (load_twice_without_write_back retriesPlugin true false st Hs)
    as (Hc & _ & _ & Hw); [reflexivity|].
  split; [exact Hw | exact Hc].
Defined.

End Extras.
